(** * The image-optimisation Lambda: [lambda/lambda_function.py]

    A shallow embedding of [lambda_handler] and of the Python operations it
    relies on (subscripting, iteration, [str.startswith], [str.replace],
    [print], [try ... except Exception]), followed by the properties of the
    batch handler.

    The handler talks to three collaborators that are not part of the
    repository: the [json] module, the S3 client of boto3 and the image
    codec of Pillow.  They are taken as an interface ([Collaborators]);
    every theorem about the handler holds for all implementations of that
    interface.  [Fixture] gives a small in-memory implementation on which
    the scenarios are run. *)

From Stdlib Require Import String Ascii List ZArith NArith Bool Lia.
From Stdlib Require Import Strings.Byte.
Import ListNotations.
Set Warnings "-register-all".
Local Open Scope string_scope.
Local Open Scope list_scope.

(** ** Python values *)

(** A Python [str] is a sequence of code points.  A code point between
    U+D800 and U+DFFF is a surrogate; [json.loads] produces one from an
    escape such as [\ud800] that has no partner, and such a string cannot
    be encoded as UTF-8. *)
Definition codepoint := N.

Definition pystr := list codepoint.

(** The [str] written as an ASCII literal in the source. *)
Definition lit (s : string) : pystr :=
  map N_of_ascii (list_ascii_of_string s).

Fixpoint str_eqb (a b : pystr) : bool :=
  match a, b with
  | [], [] => true
  | x :: a', y :: b' => (x =? y)%N && str_eqb a' b'
  | _, _ => false
  end.

Definition is_surrogate (c : codepoint) : bool :=
  ((55296 <=? c) && (c <=? 57343))%N.

(** [s.encode('utf-8')] returns: no code point of [s] is a surrogate. *)
Definition encodable (s : pystr) : bool :=
  forallb (fun c => negb (is_surrogate c)) s.

(** The values that reach the handler are decoded JSON: the Lambda runtime
    hands [event] over as a decoded JSON document and [json.loads] produces
    the same kind of value.  A [dict] keeps its insertion order (iteration
    yields the keys in that order), so it is an association list.  A float
    is kept as its literal: the handler never computes with numbers. *)
Inductive pyval : Type :=
| PyNone
| PyBool (b : bool)
| PyInt (z : Z)
| PyFloat (literal : string)
| PyStr (s : pystr)
| PyList (items : list pyval)
| PyDict (entries : list (pystr * pyval)).

Definition bytes := list byte.

(** The exceptions of the handler.  All of them are instances of Python's
    [Exception]: the built-in ones raised by subscripting, attribute access
    and printing, and [Raised cls msg] for what a collaborator raises
    ([json.JSONDecodeError], [botocore.exceptions.ClientError],
    [PIL.UnidentifiedImageError], [OSError], ...).  The message text of the
    built-in ones is not modelled; the text of a collaborator's exception
    is plain text that can always be printed (these libraries show the
    values they quote with [repr], which escapes a surrogate). *)
Inductive exn : Type :=
| KeyError (key : pyval)
| IndexError
| TypeError
| AttributeError
| UnicodeEncodeError
| Raised (cls : string) (msg : string).

Definition result (A : Type) : Type := (exn + A)%type.

(** ** Subscripting, iteration and string methods *)

Fixpoint dict_get (k : pystr) (d : list (pystr * pyval)) : option pyval :=
  match d with
  | [] => None
  | (k', v) :: d' => if str_eqb k k' then Some v else dict_get k d'
  end.

(** [v[k]] for a string [k]: only a dict accepts a string subscript. *)
Definition getitem_str (v : pyval) (k : pystr) : result pyval :=
  match v with
  | PyDict d =>
      match dict_get k d with
      | Some x => inr x
      | None => inl (KeyError (PyStr k))
      end
  | _ => inl TypeError
  end.

(** [v[0]]: the first item of a list, the first code point of a string; a
    JSON dict has string keys only, so [0] is never one of them. *)
Definition getitem_0 (v : pyval) : result pyval :=
  match v with
  | PyList (x :: _) => inr x
  | PyList [] => inl IndexError
  | PyStr (c :: _) => inr (PyStr [c])
  | PyStr [] => inl IndexError
  | PyDict _ => inl (KeyError (PyInt 0))
  | _ => inl TypeError
  end.

(** The one-character strings that iterating over a string yields, one
    per code point. *)
Definition chars (s : pystr) : list pyval :=
  map (fun c => PyStr [c]) s.

(** What [for x in v] iterates over: the items of a list, the keys of a
    dict, the characters of a string; anything else is not iterable. *)
Definition py_iter (v : pyval) : result (list pyval) :=
  match v with
  | PyList l => inr l
  | PyDict d => inr (map (fun kv => PyStr (fst kv)) d)
  | PyStr s => inr (chars s)
  | _ => inl TypeError
  end.

Fixpoint is_prefix (p s : pystr) : bool :=
  match p with
  | [] => true
  | x :: p' =>
      match s with
      | [] => false
      | y :: s' => (x =? y)%N && is_prefix p' s'
      end
  end.

(** The strings that iterating over a string or over a dict yields. *)
Definition iterated_strings (records : pyval) : list pystr :=
  match records with
  | PyStr s => map (fun c => [c]) s
  | PyDict d => map fst d
  | _ => []
  end.

(** [v.startswith(p)]: only a string has the method. *)
Definition startswith (v : pyval) (p : pystr) : result bool :=
  match v with
  | PyStr s => inr (is_prefix p s)
  | _ => inl AttributeError
  end.

(** [s.replace(old, new)] scans [s] from the left and replaces every
    occurrence of [old] that does not overlap an earlier one.  [skip] is the
    number of characters of the last match still to be passed over. *)
Fixpoint replace_from (old new : pystr) (skip : nat) (s : pystr) : pystr :=
  match s with
  | [] => []
  | c :: s' =>
      match skip with
      | S k => replace_from old new k s'
      | O =>
          if is_prefix old s
          then new ++ replace_from old new (List.length old - 1) s'
          else c :: replace_from old new 0 s'
      end
  end.

(** With an empty [old], Python puts [new] before every character and at
    the end. *)
Fixpoint intersperse (new s : pystr) : pystr :=
  match s with
  | [] => new
  | c :: s' => new ++ c :: intersperse new s'
  end.

Definition replace (s old new : pystr) : pystr :=
  match old with
  | [] => intersperse new s
  | _ => replace_from old new 0 s
  end.

(** [v.replace(old, new)]: only a string has the method. *)
Definition str_replace (v : pyval) (old new : pystr) : result pyval :=
  match v with
  | PyStr s => inr (PyStr (replace s old new))
  | _ => inl AttributeError
  end.

(** [s.replace(old, new, 1)]: the first occurrence only.  The handler does
    not call it; it is what the specification describes. *)
Fixpoint replace_first (s old new : pystr) : pystr :=
  match s with
  | [] =>
      match old with [] => new | _ => [] end
  | c :: s' =>
      if is_prefix old s
      then new ++ skipn (List.length old) s
      else c :: replace_first s' old new
  end.

(** [old in s]: [old] occurs somewhere in [s]. *)
Fixpoint contains (s old : pystr) : bool :=
  match s with
  | [] => is_prefix old []
  | _ :: s' => is_prefix old s || contains s' old
  end.

(** ** Effects *)

(** A diagnostic line is kept as its template and the values interpolated
    in it; the rendering of a value by [str]/[repr] is not modelled. *)
Inductive log_line : Type :=
| Skipping (key : pyval)
| Processing (key : pyval) (bucket : pyval)
| Saved (output_key : pyval)
| FailedMessage (record : pyval)
| ErrorDetail (e : exn).

(** Whether the text that an f-string puts in for [{v}] can be written to
    standard output, which encodes it as UTF-8.  A string is put in as it
    is, so it must be encodable; any other value is put in through [repr],
    which escapes the surrogates of the strings inside it. *)
Definition printable (v : pyval) : bool :=
  match v with
  | PyStr s => encodable s
  | _ => true
  end.

(** The text of an exception is always printable: [str] of a [KeyError] is
    the [repr] of its key, a [UnicodeEncodeError] shows the offending
    character escaped, the other built-in messages and those of the
    collaborators are plain text. *)
Definition line_printable (l : log_line) : bool :=
  match l with
  | Skipping key => printable key
  | Processing key bucket => printable key && printable bucket
  | Saved output_key => printable output_key
  | FailedMessage record => printable record
  | ErrorDetail _ => true
  end.

Inductive call : Type :=
| GetObject (bucket key : pyval)
| ReadBody
| ImageOpen (data : bytes)
| ImageSave (format : string) (quality : Z)
| PutObject (bucket key : pyval) (body : bytes) (content_type : string).

(** What an invocation does, in order: the lines it prints and the calls it
    makes, each call with whether it returned ([true]) or raised. *)
Inductive event : Type :=
| Print (line : log_line)
| Call (c : call) (ok : bool).

Definition trace := list event.

(** The collaborators.  [World] is the state outside the process (the
    object store, the network); a call to S3 reads and may change it.
    Arguments are passed as the handler has them, unchecked: a bucket or a
    key is whatever JSON value the message carried. *)
Class Collaborators (World Stream Img : Type) : Type := {
  (** [json.loads(s)] for a string [s] *)
  json_parse : pystr -> result pyval;
  (** [s3.get_object(Bucket=b, Key=k)['Body']] *)
  s3_get_object : pyval -> pyval -> World -> result Stream * World;
  (** [body.read()] *)
  stream_read : Stream -> World -> result bytes * World;
  (** [Image.open(io.BytesIO(data))] *)
  image_open : bytes -> result Img;
  (** [image.save(buffer, format=f, quality=q); buffer.seek(0)]: the
      contents of the buffer *)
  image_save : Img -> string -> Z -> result bytes;
  (** [s3.put_object(Bucket=b, Key=k, Body=buffer, ContentType=t)] *)
  s3_put_object :
    pyval -> pyval -> bytes -> string -> World -> result unit * World;
  (** The client sends the bucket and the key in the UTF-8 request it
      builds: [get_object] returns for no bucket or key that cannot be
      encoded. *)
  get_object_printable :
    forall bucket key w stream w',
      s3_get_object bucket key w = (inr stream, w') ->
      printable bucket = true /\ printable key = true
}.

(** A computation: from the state of the world to a value or a raised
    exception, the events so far and the new state.  What was printed and
    done before an exception stays printed and done. *)
Record outcome (World A : Type) : Type := Outcome {
  value : result A;
  events : trace;
  final : World
}.
Arguments Outcome {World A}.
Arguments value {World A}.
Arguments events {World A}.
Arguments final {World A}.

Definition M (World A : Type) : Type := World -> outcome World A.

Definition ret {W A} (a : A) : M W A := fun w => Outcome (inr a) [] w.

Definition bind {W A B} (m : M W A) (f : A -> M W B) : M W B :=
  fun w =>
    match m w with
    | Outcome (inl e) t w1 => Outcome (inl e) t w1
    | Outcome (inr a) t w1 =>
        match f a w1 with
        | Outcome v t' w2 => Outcome v (t ++ t') w2
        end
    end.

(** [try: m except Exception as e: h e] *)
Definition try_except {W A} (m : M W A) (h : exn -> M W A) : M W A :=
  fun w =>
    match m w with
    | Outcome (inl e) t w1 =>
        match h e w1 with
        | Outcome v t' w2 => Outcome v (t ++ t') w2
        end
    | Outcome (inr a) t w1 => Outcome (inr a) t w1
    end.

Definition lift {W A} (r : result A) : M W A :=
  fun w => Outcome r [] w.

(** [print(line)]: standard output encodes the line as UTF-8 before it
    writes anything; a line that cannot be encoded raises
    [UnicodeEncodeError] and leaves nothing in the log. *)
Definition print {W} (l : log_line) : M W unit :=
  fun w =>
    if line_printable l then Outcome (inr tt) [Print l] w
    else Outcome (inl UnicodeEncodeError) [] w.

Definition is_ok {A} (r : result A) : bool :=
  match r with inr _ => true | inl _ => false end.

(** A call that reads or changes the world. *)
Definition invoke {W A} (c : call) (f : W -> result A * W) : M W A :=
  fun w => let (r, w') := f w in Outcome r [Call c (is_ok r)] w'.

(** A call that only computes. *)
Definition invoke_pure {W A} (c : call) (r : result A) : M W A :=
  fun w => Outcome r [Call c (is_ok r)] w.

Declare Scope py_scope.
Delimit Scope py_scope with py.
Notation "x <- m ;; k" := (bind m (fun x => k))
  (at level 100, m at next level, right associativity) : py_scope.
Notation "m ;;; k" := (bind m (fun _ => k))
  (at level 100, right associativity) : py_scope.

Fixpoint for_each {W A} (body : A -> M W unit) (l : list A) : M W unit :=
  match l with
  | [] => ret tt
  | x :: l' => bind (body x) (fun _ => for_each body l')
  end.

(** ** The handler *)

Section Handler.

Context {World Stream Img : Type} {env : Collaborators World Stream Img}.

Local Open Scope py_scope.

(** [json.loads(v)]: a string is parsed, any other JSON value is a
    [TypeError]. *)
Definition json_loads (v : pyval) : result pyval :=
  match v with
  | PyStr s => json_parse s
  | _ => inl TypeError
  end.

(** The body of the [try] block for one message of the batch. *)
Definition try_body (record : pyval) : M World unit :=
  body <- lift (getitem_str record (lit "body")) ;;
  message_body <- lift (json_loads body) ;;
  records <- lift (getitem_str message_body (lit "Records")) ;;
  s3_record <- lift (getitem_0 records) ;;
  s3_b <- lift (getitem_str s3_record (lit "s3")) ;;
  bucket_d <- lift (getitem_str s3_b (lit "bucket")) ;;
  bucket <- lift (getitem_str bucket_d (lit "name")) ;;
  s3_k <- lift (getitem_str s3_record (lit "s3")) ;;
  object_d <- lift (getitem_str s3_k (lit "object")) ;;
  key <- lift (getitem_str object_d (lit "key")) ;;
  accepted <- lift (startswith key (lit "uploads/")) ;;
  if negb accepted then print (Skipping key)
  else
    print (Processing key bucket) ;;;
    image_obj <- invoke (GetObject bucket key) (s3_get_object bucket key) ;;
    image_data <- invoke ReadBody (stream_read image_obj) ;;
    image <- invoke_pure (ImageOpen image_data) (image_open image_data) ;;
    buffer <- invoke_pure (ImageSave "JPEG" 30) (image_save image "JPEG" 30) ;;
    output_key <- lift (str_replace key (lit "uploads/") (lit "optimized/")) ;;
    invoke (PutObject bucket output_key buffer "image/jpeg")
      (s3_put_object bucket output_key buffer "image/jpeg") ;;;
    print (Saved output_key).

(** One iteration of the loop: the [try] block and its
    [except Exception as e] clause.  The two [print] calls of the clause are
    outside the [try]: what they raise leaves the loop. *)
Definition process_message (record : pyval) : M World unit :=
  try_except (try_body record)
    (fun e => print (FailedMessage record) ;;; print (ErrorDetail e)).

Definition response : pyval :=
  PyDict [(lit "statusCode", PyInt 200);
          (lit "body", PyStr (lit "Batch processed"))].

Definition lambda_handler (event context : pyval) : M World pyval :=
  records <- lift (getitem_str event (lit "Records")) ;;
  batch <- lift (py_iter records) ;;
  for_each process_message batch ;;;
  ret response.

(** The two halves of the [try] block, named for the statements below:
    the values that lines 13-17 bind to [bucket] and [key], and what lines
    20-40 do with them.  [try_body_split] shows that [try_body] is the one
    followed by the other. *)
Definition and_then {A B} (r : result A) (f : A -> result B) : result B :=
  match r with
  | inl e => inl e
  | inr a => f a
  end.


Definition extract (record : pyval) : result (pyval * pyval) :=
  and_then (getitem_str record (lit "body")) (fun body =>
  and_then (json_loads body) (fun message_body =>
  and_then (getitem_str message_body (lit "Records")) (fun records =>
  and_then (getitem_0 records) (fun s3_record =>
  and_then (getitem_str s3_record (lit "s3")) (fun s3_b =>
  and_then (getitem_str s3_b (lit "bucket")) (fun bucket_d =>
  and_then (getitem_str bucket_d (lit "name")) (fun bucket =>
  and_then (getitem_str s3_record (lit "s3")) (fun s3_k =>
  and_then (getitem_str s3_k (lit "object")) (fun object_d =>
  and_then (getitem_str object_d (lit "key")) (fun key =>
  inr (bucket, key))))))))))).

Definition transform (bucket key : pyval) : M World unit :=
  accepted <- lift (startswith key (lit "uploads/")) ;;
  if negb accepted then print (Skipping key)
  else
    print (Processing key bucket) ;;;
    image_obj <- invoke (GetObject bucket key) (s3_get_object bucket key) ;;
    image_data <- invoke ReadBody (stream_read image_obj) ;;
    image <- invoke_pure (ImageOpen image_data) (image_open image_data) ;;
    buffer <- invoke_pure (ImageSave "JPEG" 30) (image_save image "JPEG" 30) ;;
    output_key <- lift (str_replace key (lit "uploads/") (lit "optimized/")) ;;
    invoke (PutObject bucket output_key buffer "image/jpeg")
      (s3_put_object bucket output_key buffer "image/jpeg") ;;;
    print (Saved output_key).

Definition run_batch (batch : list pyval) : M World unit :=
  for_each process_message batch.

(** The two lines of the [except] clause. *)
Definition failure_lines (record : pyval) (e : exn) : trace :=
  [Print (FailedMessage record); Print (ErrorDetail e)].

(** Every step of the pipeline returns for this message, from this state
    of the world: its event is accepted and the fetch, the decoding, the
    encoding and the write raise nothing. *)
Definition pipeline_succeeds (record : pyval) (w : World) : Prop :=
  exists bucket key stream w1 data w2 image buffer output_key w3,
    extract record = inr (bucket, key) /\
    startswith key (lit "uploads/") = inr true /\
    s3_get_object bucket key w = (inr stream, w1) /\
    stream_read stream w1 = (inr data, w2) /\
    image_open data = inr image /\
    image_save image "JPEG" 30 = inr buffer /\
    str_replace key (lit "uploads/") (lit "optimized/") = inr output_key /\
    s3_put_object bucket output_key buffer "image/jpeg" w2 = (inr tt, w3).

(** The event of the message is accepted: lines 13-17 give a bucket and a
    key, and the test of line 20 lets the key through. *)
Definition accepted (record : pyval) : bool :=
  match extract record with
  | inr (_, key) =>
      match startswith key (lit "uploads/") with
      | inr true => true
      | _ => false
      end
  | inl _ => false
  end.

(** The message gets as far as the fetch: its event is accepted and line
    24 can print its key and its bucket. *)
Definition reaches_fetch (record : pyval) : bool :=
  match extract record with
  | inr (bucket, key) =>
      match startswith key (lit "uploads/") with
      | inr true => printable key && printable bucket
      | _ => false
      end
  | inl _ => false
  end.

End Handler.

(** ** Observations on a trace *)

(** An output artifact was written: some [put_object] call returned. *)
Definition artifact_written (t : trace) : Prop :=
  exists bucket key body content_type,
    In (Call (PutObject bucket key body content_type) true) t.

Definition is_call (ev : event) : bool :=
  match ev with
  | Call _ _ => true
  | Print _ => false
  end.

Definition is_get_object (ev : event) : bool :=
  match ev with
  | Call (GetObject _ _) _ => true
  | _ => false
  end.

Definition is_put_object (ev : event) : bool :=
  match ev with
  | Call (PutObject _ _ _ _) _ => true
  | _ => false
  end.

Definition count (p : event -> bool) (t : trace) : nat :=
  List.length (filter p t).

(** The line that closes the processing of a message: skipped, saved or
    failed. *)
Definition is_verdict (ev : event) : bool :=
  match ev with
  | Print (Skipping _) => true
  | Print (Saved _) => true
  | Print (FailedMessage _) => true
  | _ => false
  end.

(** No call follows a call that raised. *)
Fixpoint quiet_after_failure (t : trace) : bool :=
  match t with
  | [] => true
  | Call _ false :: t' => forallb (fun ev => negb (is_call ev)) t'
  | _ :: t' => quiet_after_failure t'
  end.

(** ** An in-memory implementation of the collaborators *)

Module Fixture.

(** The object store: the objects by bucket and key, and the buckets that
    refuse writes. *)
Record store : Type := Store {
  objects : list (pystr * pystr * bytes);
  write_denied : list pystr
}.

Fixpoint find_object (b k : pystr) (l : list (pystr * pystr * bytes))
  : option bytes :=
  match l with
  | [] => None
  | (b', k', data) :: l' =>
      if (str_eqb b b' && str_eqb k k')%bool then Some data
      else find_object b k l'
  end.

(** The request is encoded before it is looked up. *)
Definition get_object (bucket key : pyval) (w : store)
  : result bytes * store :=
  match bucket, key with
  | PyStr b, PyStr k =>
      if encodable b && encodable k then
        match find_object b k (objects w) with
        | Some data => (inr data, w)
        | None => (inl (Raised "ClientError" "NoSuchKey"), w)
        end
      else (inl (Raised "UnicodeEncodeError" "surrogates not allowed"), w)
  | _, _ => (inl (Raised "ParamValidationError" "Bucket"), w)
  end.

Definition read (s : bytes) (w : store) : result bytes * store := (inr s, w).

Definition put_object (bucket key : pyval) (body : bytes) (ct : string)
    (w : store) : result unit * store :=
  match bucket, key with
  | PyStr b, PyStr k =>
      if existsb (str_eqb b) (write_denied w)
      then (inl (Raised "ClientError" "AccessDenied"), w)
      else (inr tt, Store ((b, k, body) :: objects w) (write_denied w))
  | _, _ => (inl (Raised "ParamValidationError" "Bucket"), w)
  end.

(** A toy codec: an image is a marker byte followed by its pixels;
    encoding writes the marker, the quality and the pixels. *)
Definition open (data : bytes) : result bytes :=
  match data with
  | xff :: pixels => inr pixels
  | _ => inl (Raised "UnidentifiedImageError" "cannot identify image file")
  end.

Definition save (pixels : bytes) (format : string) (quality : Z)
  : result bytes :=
  if String.eqb format "JPEG"
  then inr (xff :: byte_of_ascii (ascii_of_nat (Z.to_nat quality)) :: pixels)
  else inl (Raised "KeyError" format).

(** Message bodies are written in a one-line notation instead of JSON
    text: records separated by [;], each one [bucket key] or, with no
    space, a record without the [s3] entry.  A body that starts with [!]
    is malformed. *)
Fixpoint split_on (sep : codepoint) (s : pystr) : list pystr :=
  match s with
  | [] => [[]]
  | c :: s' =>
      if (c =? sep)%N then [] :: split_on sep s'
      else
        match split_on sep s' with
        | [] => [[c]]
        | h :: t => (c :: h) :: t
        end
  end.

Definition s3_record (line : pystr) : pyval :=
  match split_on 32%N line with
  | [b; k] =>
      PyDict [(lit "eventName", PyStr (lit "ObjectCreated:Put"));
              (lit "s3",
               PyDict [(lit "bucket", PyDict [(lit "name", PyStr b)]);
                       (lit "object", PyDict [(lit "key", PyStr k)])])]
  | _ => PyDict [(lit "eventName", PyStr line)]
  end.

Definition parse (s : pystr) : result pyval :=
  match s with
  | [] => inl (Raised "JSONDecodeError" "Expecting value")
  | c :: _ =>
      if (c =? 33)%N then inl (Raised "JSONDecodeError" "Expecting value")
      else inr (PyDict [(lit "Records",
                         PyList (map s3_record (split_on 59%N s)))])
  end.

#[export] Instance collaborators : Collaborators store bytes bytes.
Proof.
  refine {| json_parse := parse;
            s3_get_object := get_object;
            stream_read := read;
            image_open := open;
            image_save := save;
            s3_put_object := put_object;
            get_object_printable := _ |}.
  intros bucket key w stream w' H. unfold get_object in H.
  destruct bucket, key; try discriminate.
  cbn [printable].
  destruct (encodable s && encodable s0) eqn:E; [| discriminate].
  apply andb_true_iff in E. exact E.
Defined.

(** The same collaborators behind a parser that reads every body as a
    document with an empty ['Records'] list. *)
Definition hollow : Collaborators store bytes bytes :=
  {| json_parse := fun _ => inr (PyDict [(lit "Records", PyList [])]);
     s3_get_object := get_object;
     stream_read := read;
     image_open := open;
     image_save := save;
     s3_put_object := put_object;
     get_object_printable := @get_object_printable _ _ _ collaborators |}.

Definition raw_message (body : pystr) : pyval :=
  PyDict [(lit "messageId", PyStr (lit "m")); (lit "body", PyStr body)].

Definition message (body : string) : pyval := raw_message (lit body).

Definition raw_event (items : list pyval) : pyval :=
  PyDict [(lit "Records", PyList items)].

Definition batch_event (bodies : list string) : pyval :=
  raw_event (map message bodies).

(** A string that holds one lone surrogate, as [json.loads] gives for the
    escape [\ud800]. *)
Definition lone_surrogate : pystr := [55296%N].

Definition photo : bytes := [xff; x01; x02; x03].

Definition encoded_photo : bytes := [xff; x1e; x01; x02; x03].

Definition initial : store :=
  Store [(lit "images", lit "uploads/photo.jpg", photo);
         (lit "images", lit "uploads/a/uploads/b.jpg", photo);
         (lit "images", lit "uploads/notes.txt", [x68; x69]);
         (lit "vault", lit "uploads/photo.jpg", photo)]
        [lit "vault"].

End Fixture.

(** * Properties *)

(** ** Strings *)

Lemma str_eqb_refl (s : pystr) : str_eqb s s = true.
Proof.
  induction s as [| c s IH]; [reflexivity |].
  cbn. rewrite N.eqb_refl. exact IH.
Qed.

Lemma is_prefix_nil (s : pystr) : is_prefix s [] = true -> s = [].
Proof. destruct s; [reflexivity | discriminate]. Qed.

(** A literal of the source has no surrogate. *)
Lemma encodable_lit (s : string) : encodable (lit s) = true.
Proof.
  unfold lit. induction s as [| a s IH]; [reflexivity |].
  cbn [list_ascii_of_string map encodable forallb].
  fold (encodable (map N_of_ascii (list_ascii_of_string s))).
  rewrite IH, andb_true_r. clear.
  destruct a as [[] [] [] [] [] [] [] []]; reflexivity.
Qed.

Lemma encodable_app (a b : pystr) :
  encodable (a ++ b) = encodable a && encodable b.
Proof. apply forallb_app. Qed.

Section Replace.

Variables old new : pystr.

Lemma replace_from_skip (s : pystr) :
  forall k, replace_from old new k s = replace_from old new 0 (skipn k s).
Proof.
  induction s as [| c s IH]; intros k.
  - destruct k; reflexivity.
  - destruct k as [| k]; [reflexivity |].
    change (replace_from old new (S k) (c :: s))
      with (replace_from old new k s).
    change (skipn (S k) (c :: s)) with (skipn k s).
    apply IH.
Qed.

Lemma replace_nonempty (s : pystr) :
  old <> [] -> replace s old new = replace_from old new 0 s.
Proof. unfold replace. destruct old; [congruence | reflexivity]. Qed.

Lemma length_nonempty :
  old <> [] -> exists n, List.length old = S n.
Proof. destruct old; [congruence | eexists; reflexivity]. Qed.

(** At an occurrence of [old], [replace] writes [new] and goes on after
    the occurrence: what follows is rewritten too. *)
Lemma replace_at_prefix (s : pystr) :
  old <> [] ->
  is_prefix old s = true ->
  replace s old new = new ++ replace (skipn (List.length old) s) old new.
Proof.
  intros Hold Hp. rewrite !replace_nonempty by exact Hold.
  destruct (length_nonempty Hold) as [n Hn].
  destruct s as [| c s'].
  - apply is_prefix_nil in Hp. congruence.
  - cbn [replace_from]. rewrite Hp, replace_from_skip, Hn.
    cbn [skipn]. rewrite Nat.sub_succ, Nat.sub_0_r. reflexivity.
Qed.

Lemma replace_first_at_prefix (s : pystr) :
  old <> [] ->
  is_prefix old s = true ->
  replace_first s old new = new ++ skipn (List.length old) s.
Proof.
  intros Hold Hp. destruct s as [| c s'].
  - apply is_prefix_nil in Hp. congruence.
  - cbn [replace_first]. rewrite Hp. reflexivity.
Qed.

(** The two agree on a string that starts with [old] exactly when
    [replace] leaves the rest of the string as it is. *)
Lemma replace_first_agrees (s : pystr) :
  old <> [] ->
  is_prefix old s = true ->
  (replace s old new = replace_first s old new <->
   replace (skipn (List.length old) s) old new = skipn (List.length old) s).
Proof.
  intros Hold Hp.
  rewrite (replace_at_prefix s Hold Hp), (replace_first_at_prefix s Hold Hp).
  split; intros H.
  - apply app_inv_head in H. exact H.
  - rewrite H. reflexivity.
Qed.

Lemma replace_from_absent :
  forall s, contains s old = false -> replace_from old new 0 s = s.
Proof.
  induction s as [| c s IH]; intros H.
  - reflexivity.
  - cbn [contains] in H. apply orb_false_iff in H. destruct H as [Hp Hc].
    cbn [replace_from]. rewrite Hp, (IH Hc). reflexivity.
Qed.

Lemma replace_absent (s : pystr) :
  old <> [] -> contains s old = false -> replace s old new = s.
Proof.
  intros Hold H. rewrite replace_nonempty by exact Hold.
  apply replace_from_absent, H.
Qed.

(** Replacing leaves a string encodable when what is put in is. *)
Lemma encodable_replace_from :
  encodable new = true ->
  forall s k, encodable s = true ->
              encodable (replace_from old new k s) = true.
Proof.
  intros Hnew. induction s as [| c s IH]; intros k Hs.
  - reflexivity.
  - cbn [encodable forallb] in Hs. apply andb_true_iff in Hs.
    destruct Hs as [Hc Hs]. fold (encodable s) in Hs.
    destruct k as [| k]; cbn [replace_from].
    + destruct (is_prefix old (c :: s)).
      * rewrite encodable_app, Hnew. apply IH, Hs.
      * cbn [encodable forallb]. rewrite Hc. apply IH, Hs.
    + apply IH, Hs.
Qed.

End Replace.

Lemma is_prefix_split (p : pystr) :
  forall s, is_prefix p s = true -> s = p ++ skipn (List.length p) s.
Proof.
  induction p as [| a p IH]; intros s H.
  - reflexivity.
  - destruct s as [| c s]; [discriminate |].
    cbn [is_prefix] in H. apply andb_true_iff in H. destruct H as [Hc H].
    apply N.eqb_eq in Hc. subst c.
    cbn. f_equal. apply IH, H.
Qed.

Example replace_every_occurrence :
  replace (lit "a-b-c") (lit "-") (lit "+") = lit "a+b+c".
Proof. reflexivity. Qed.

Example replace_does_not_overlap :
  replace (lit "aaa") (lit "aa") (lit "b") = lit "ba".
Proof. reflexivity. Qed.

Example replace_empty_pattern :
  replace (lit "abc") (lit "") (lit "-") = lit "-a-b-c-".
Proof. reflexivity. Qed.

Example replace_first_only :
  replace_first (lit "a-b-c") (lit "-") (lit "+") = lit "a+b-c".
Proof. reflexivity. Qed.

(** A string is iterated over code point by code point. *)
Example chars_per_code_point :
  chars [26085%N] = [PyStr [26085%N]].
Proof. reflexivity. Qed.

Lemma lit_uploads_nonempty : lit "uploads/" <> [].
Proof. discriminate. Qed.

(** The destination key of an accepted key: [optimized/] followed by the
    rest of the key with its own occurrences of [uploads/] replaced. *)
Lemma destination_of_accepted_key (key : pystr) :
  is_prefix (lit "uploads/") key = true ->
  replace key (lit "uploads/") (lit "optimized/") =
  lit "optimized/" ++ replace (skipn 8 key) (lit "uploads/") (lit "optimized/").
Proof.
  intros Hp.
  apply (replace_at_prefix (lit "uploads/") (lit "optimized/") key
           lit_uploads_nonempty Hp).
Qed.

Lemma encodable_destination (key : pystr) :
  encodable key = true ->
  encodable (replace key (lit "uploads/") (lit "optimized/")) = true.
Proof.
  intros H. rewrite (replace_nonempty _ _ _ lit_uploads_nonempty).
  apply encodable_replace_from; [apply encodable_lit | exact H].
Qed.

(** ** The monad *)

Section MonadFacts.

Context {W : Type}.

Lemma outcome_eta {A} (r : outcome W A) :
  Outcome (value r) (events r) (final r) = r.
Proof. destruct r; reflexivity. Qed.

Lemma bind_lift {A B} (r : result A) (f : A -> M W B) (w : W) :
  bind (lift r) f w =
  match r with
  | inl e => Outcome (inl e) [] w
  | inr a => f a w
  end.
Proof.
  unfold bind, lift; destruct r as [e | a]; simpl; [reflexivity |].
  destruct (f a w); reflexivity.
Qed.

(** The events and the final state of [bind m f] when [m] returns. *)
Lemma bind_returns {A B} (m : M W A) (f : A -> M W B) (w : W) (a : A) :
  value (m w) = inr a ->
  bind m f w =
  Outcome (value (f a (final (m w))))
    (events (m w) ++ events (f a (final (m w))))
    (final (f a (final (m w)))).
Proof.
  unfold bind. destruct (m w) as [[e | a'] t w1]; simpl; intros H.
  - discriminate.
  - injection H as ->. destruct (f a w1); reflexivity.
Qed.

Lemma bind_raises {A B} (m : M W A) (f : A -> M W B) (w : W) (e : exn) :
  value (m w) = inl e ->
  bind m f w = Outcome (inl e) (events (m w)) (final (m w)).
Proof.
  unfold bind. destruct (m w) as [[e' | a] t w1]; simpl; intros H.
  - injection H as ->. reflexivity.
  - discriminate.
Qed.

Lemma try_except_returns {A} (m : M W A) (h : exn -> M W A) (w : W) (a : A) :
  value (m w) = inr a -> try_except m h w = m w.
Proof.
  unfold try_except. destruct (m w) as [[e | a'] t w1]; simpl; intros H.
  - discriminate.
  - reflexivity.
Qed.

Lemma try_except_raises {A} (m : M W A) (h : exn -> M W A) (w : W) (e : exn) :
  value (m w) = inl e ->
  try_except m h w =
  Outcome (value (h e (final (m w))))
    (events (m w) ++ events (h e (final (m w))))
    (final (h e (final (m w)))).
Proof.
  unfold try_except. destruct (m w) as [[e' | a] t w1]; simpl; intros H.
  - injection H as ->. destruct (h e w1); reflexivity.
  - discriminate.
Qed.

Lemma for_each_cons {A} (body : A -> M W unit) (x : A) (l : list A) (w : W) :
  for_each body (x :: l) w = bind (body x) (fun _ => for_each body l) w.
Proof. reflexivity. Qed.

(** A loop over [l1 ++ l2] whose first part raises nothing is the loop
    over [l1] followed by the loop over [l2]. *)
Lemma for_each_app {A} (body : A -> M W unit) (l1 l2 : list A) :
  forall w,
    value (for_each body l1 w) = inr tt ->
    for_each body (l1 ++ l2) w =
    Outcome (value (for_each body l2 (final (for_each body l1 w))))
      (events (for_each body l1 w)
       ++ events (for_each body l2 (final (for_each body l1 w))))
      (final (for_each body l2 (final (for_each body l1 w)))).
Proof.
  induction l1 as [| x l1 IH]; intros w Hv.
  - simpl. symmetry. apply outcome_eta.
  - simpl app. rewrite !for_each_cons in *.
    destruct (value (body x w)) as [e | []] eqn:Hx.
    + rewrite (bind_raises _ _ _ _ Hx) in Hv. discriminate.
    + rewrite (bind_returns _ _ _ _ Hx) in Hv.
      rewrite !(bind_returns _ _ _ _ Hx). simpl in Hv.
      rewrite (IH _ Hv). simpl. rewrite app_assoc. reflexivity.
Qed.

(** A loop whose first part raises stops there. *)
Lemma for_each_app_raises {A} (body : A -> M W unit) (l1 l2 : list A) :
  forall w e,
    value (for_each body l1 w) = inl e ->
    for_each body (l1 ++ l2) w = for_each body l1 w.
Proof.
  induction l1 as [| x l1 IH]; intros w e Hv.
  - discriminate.
  - simpl app. rewrite !for_each_cons in *.
    destruct (value (body x w)) as [e' | []] eqn:Hx.
    + rewrite !(bind_raises _ _ _ _ Hx). reflexivity.
    + rewrite (bind_returns _ _ _ _ Hx) in Hv.
      rewrite !(bind_returns _ _ _ _ Hx). simpl in Hv.
      rewrite (IH _ _ Hv). reflexivity.
Qed.

End MonadFacts.

(** ** One message *)

Section MessageFacts.

Context {World Stream Img : Type} {env : Collaborators World Stream Img}.

Local Open Scope py_scope.

Ltac step :=
  match goal with
  | |- context [bind (lift ?r) _ _] =>
      rewrite (bind_lift r); destruct r; simpl; try reflexivity
  end.

Lemma try_body_split (record : pyval) (w : World) :
  try_body record w =
  match extract record with
  | inl e => Outcome (inl e) [] w
  | inr (bucket, key) => transform bucket key w
  end.
Proof.
  unfold try_body, extract, and_then.
  repeat step.
Qed.


(** Only a dict has a ['body']. *)
Lemma extract_dict (record : pyval) (x : pyval * pyval) :
  extract record = inr x -> exists entries, record = PyDict entries.
Proof.
  destruct record; try discriminate. eauto.
Qed.

Lemma getitem_str_dict (record : pyval) (k : pystr) (x : pyval) :
  getitem_str record k = inr x -> exists entries, record = PyDict entries.
Proof.
  destruct record; try discriminate. eauto.
Qed.

End MessageFacts.

(** All the ways the second half of the [try] block can go. *)
Ltac run_pipeline :=
  unfold transform, bind, lift, invoke, invoke_pure, print, startswith,
    str_replace;
  cbn [negb is_ok app andb printable line_printable];
  repeat match goal with
    | |- context [is_prefix ?p ?s] =>
        let H := fresh "Hprefix" in
        destruct (is_prefix p s) eqn:H;
        cbn [negb is_ok app andb printable line_printable]
    | H : encodable ?s = true
      |- context [encodable (replace ?s ?o ?n)] =>
        rewrite (encodable_destination s H);
        cbn [negb is_ok app andb printable line_printable]
    | |- context [encodable ?s] =>
        is_var s;
        let H := fresh "Hencodable" in
        destruct (encodable s) eqn:H;
        cbn [negb is_ok app andb printable line_printable]
    | |- context [printable ?b] =>
        is_var b;
        let H := fresh "Hprintable" in
        destruct (printable b) eqn:H;
        cbn [negb is_ok app andb printable line_printable]
    | |- context [s3_get_object ?b ?k ?w] =>
        let H := fresh "Hget" in
        destruct (s3_get_object b k w) as [[? | ?] ?] eqn:H;
        cbn [negb is_ok app andb printable line_printable]
    | |- context [stream_read ?s ?w] =>
        let H := fresh "Hread" in
        destruct (stream_read s w) as [[? | ?] ?] eqn:H;
        cbn [negb is_ok app andb printable line_printable]
    | |- context [image_open ?d] =>
        let H := fresh "Hopen" in
        destruct (image_open d) as [? | ?] eqn:H;
        cbn [negb is_ok app andb printable line_printable]
    | |- context [image_save ?i ?f ?q] =>
        let H := fresh "Hsave" in
        destruct (image_save i f q) as [? | ?] eqn:H;
        cbn [negb is_ok app andb printable line_printable]
    | |- context [s3_put_object ?b ?k ?d ?c ?w] =>
        let H := fresh "Hput" in
        destruct (s3_put_object b k d c w) as [[? | []] ?] eqn:H;
        cbn [negb is_ok app andb printable line_printable]
    end.

(** All the ways one message can go: the item is not a dict, or lines
    13-17 fail, or they give a bucket and a key. *)
Ltac run_message record :=
  unfold process_message, try_except;
  rewrite (try_body_split record);
  let Hx := fresh "Hextract" in
  destruct record as [ | ? | ? | ? | ? | ? | ? ];
  [ cbn [extract and_then getitem_str] ..
  | match goal with
    | |- context [extract ?r] =>
        destruct (extract r) as [? | [? [ | | | | ? | | ]]] eqn:Hx
    end ];
  run_pipeline; cbn [app].

Section MessageOutcomes.

Context {World Stream Img : Type} {env : Collaborators World Stream Img}.

Lemma startswith_str (key : pyval) (p : pystr) (b : bool) :
  startswith key p = inr b ->
  exists s, key = PyStr s /\ is_prefix p s = b.
Proof.
  destruct key; simpl; intros H; try discriminate.
  injection H as H. eauto.
Qed.

(** The [except] clause lets nothing of the [try] block through; the
    message ends without an exception when its own failure line can be
    printed. *)
Lemma process_message_returns (record : pyval) (w : World) :
  printable record = true ->
  value (process_message record w) = inr tt.
Proof.
  run_message record; intros H; try discriminate; reflexivity.
Qed.

(** A batch item that cannot be printed is a string; it fails as a message
    and the line that should show it raises in the [except] clause. *)
Lemma process_message_unprintable (record : pyval) (w : World) :
  printable record = false ->
  process_message record w = Outcome (inl UnicodeEncodeError) [] w.
Proof.
  run_message record; intros H; try discriminate; reflexivity.
Qed.

(** Every message that ends without an exception leaves at least one line
    in the log. *)
Lemma process_message_prints (record : pyval) (w : World) :
  printable record = true ->
  events (process_message record w) <> [].
Proof.
  run_message record; intros H; discriminate.
Qed.

Lemma process_message_caught (record : pyval) (w : World) (e : exn) :
  value (try_body record w) = inl e ->
  printable record = true ->
  process_message record w =
  Outcome (inr tt)
    (events (try_body record w) ++ failure_lines record e)
    (final (try_body record w)).
Proof.
  intros H Hp. unfold process_message.
  rewrite (try_except_raises _ _ _ _ H).
  unfold bind, print. cbn [line_printable]. rewrite Hp. reflexivity.
Qed.

Lemma process_message_clean (record : pyval) (w : World) :
  value (try_body record w) = inr tt ->
  process_message record w = try_body record w.
Proof.
  intros H. unfold process_message. apply (try_except_returns _ _ _ _ H).
Qed.

(** A key that is not a string has no [startswith]: the message fails
    with an [AttributeError], it is not skipped. *)
Lemma non_string_key_fails (record bucket key : pyval) (w : World) :
  extract record = inr (bucket, key) ->
  (forall s, key <> PyStr s) ->
  process_message record w =
  Outcome (inr tt) (failure_lines record AttributeError) w.
Proof.
  intros Hx Hk.
  destruct (extract_dict record _ Hx) as [entries ->].
  unfold process_message, try_except.
  rewrite try_body_split, Hx. unfold transform. rewrite bind_lift.
  destruct key; try reflexivity. destruct (Hk s eq_refl).
Qed.

End MessageOutcomes.

(** ** The batch *)

Section BatchFacts.

Context {World Stream Img : Type} {env : Collaborators World Stream Img}.

Lemma run_batch_cons (m : pyval) (batch : list pyval) (w : World) :
  printable m = true ->
  run_batch (m :: batch) w =
  Outcome (value (run_batch batch (final (process_message m w))))
    (events (process_message m w)
     ++ events (run_batch batch (final (process_message m w))))
    (final (run_batch batch (final (process_message m w)))).
Proof.
  intros Hp. unfold run_batch. rewrite for_each_cons.
  apply (bind_returns (process_message m)
           (fun _ => for_each process_message batch) w tt).
  apply process_message_returns, Hp.
Qed.

Lemma run_batch_cons_unprintable
    (m : pyval) (batch : list pyval) (w : World) :
  printable m = false ->
  run_batch (m :: batch) w = Outcome (inl UnicodeEncodeError) [] w.
Proof.
  intros Hp. unfold run_batch. rewrite for_each_cons.
  rewrite (bind_raises (process_message m) _ w UnicodeEncodeError);
    rewrite (process_message_unprintable m w Hp); reflexivity.
Qed.

(** The loop ends without an exception exactly when every item of the
    batch can be printed. *)
Lemma run_batch_returns (batch : list pyval) :
  forall w,
    forallb printable batch = true -> value (run_batch batch w) = inr tt.
Proof.
  induction batch as [| m batch IH]; intros w H.
  - reflexivity.
  - cbn [forallb] in H. apply andb_true_iff in H. destruct H as [Hm H].
    rewrite (run_batch_cons m batch w Hm). apply IH, H.
Qed.

Lemma run_batch_raises (batch : list pyval) :
  forall w,
    forallb printable batch = false ->
    value (run_batch batch w) = inl UnicodeEncodeError.
Proof.
  induction batch as [| m batch IH]; intros w H.
  - discriminate.
  - cbn [forallb] in H. destruct (printable m) eqn:Hm.
    + rewrite (run_batch_cons m batch w Hm). apply IH, H.
    + rewrite (run_batch_cons_unprintable m batch w Hm). reflexivity.
Qed.

Lemma run_batch_app (l1 l2 : list pyval) (w : World) :
  value (run_batch l1 w) = inr tt ->
  run_batch (l1 ++ l2) w =
  Outcome (value (run_batch l2 (final (run_batch l1 w))))
    (events (run_batch l1 w) ++ events (run_batch l2 (final (run_batch l1 w))))
    (final (run_batch l2 (final (run_batch l1 w)))).
Proof.
  intros H. unfold run_batch at 1.
  rewrite (for_each_app _ _ _ _ H). reflexivity.
Qed.

Lemma run_batch_app_raises (l1 l2 : list pyval) (w : World) (e : exn) :
  value (run_batch l1 w) = inl e ->
  run_batch (l1 ++ l2) w = run_batch l1 w.
Proof.
  intros H. unfold run_batch at 1.
  apply (for_each_app_raises _ _ _ _ _ H).
Qed.

(** Every message of a batch whose items can be printed is processed,
    from some state of the world, and what it does is part of what the
    batch does. *)
Lemma run_batch_attempts (batch : list pyval) :
  forall (w : World) (j : nat) (m : pyval),
    forallb printable batch = true ->
    nth_error batch j = Some m ->
    exists w' t1 t2,
      events (run_batch batch w) = t1 ++ events (process_message m w') ++ t2.
Proof.
  induction batch as [| x batch IH]; intros w j m Hp Hj.
  - destruct j; discriminate.
  - cbn [forallb] in Hp. apply andb_true_iff in Hp. destruct Hp as [Hx Hp].
    rewrite (run_batch_cons x batch w Hx). cbn [events].
    destruct j as [| j].
    + injection Hj as ->. exists w, [].
      eexists. reflexivity.
    + destruct (IH (final (process_message x w)) j m Hp Hj)
        as (w' & t1 & t2 & Heq).
      exists w', (events (process_message x w) ++ t1), t2.
      rewrite Heq, <- app_assoc. reflexivity.
Qed.

(** Conversely, every event of a batch is an event of one of its
    messages. *)
Lemma run_batch_event_origin (batch : list pyval) :
  forall (w : World) (ev : event),
    In ev (events (run_batch batch w)) ->
    exists m w' t1 t2,
      In m batch /\
      In ev (events (process_message m w')) /\
      events (run_batch batch w) = t1 ++ events (process_message m w') ++ t2.
Proof.
  induction batch as [| x batch IH]; intros w ev Hin.
  - contradiction.
  - destruct (printable x) eqn:Hx.
    + rewrite (run_batch_cons x batch w Hx) in *. cbn [events] in *.
      apply in_app_or in Hin. destruct Hin as [Hin | Hin].
      * exists x, w, [].
        eexists. repeat split; [left; reflexivity | exact Hin].
      * destruct (IH _ _ Hin) as (m & w' & t1 & t2 & Hm & He & Heq).
        exists m, w', (events (process_message x w) ++ t1), t2.
        repeat split; [right; exact Hm | exact He |].
        rewrite Heq, <- app_assoc. reflexivity.
    + rewrite (run_batch_cons_unprintable x batch w Hx) in Hin.
      contradiction.
Qed.

(** The handler on an event whose ['Records'] can be iterated over: the
    loop, then the acknowledgment unless the loop raised. *)
Lemma lambda_handler_batch (event context records : pyval)
    (batch : list pyval) (w : World) :
  getitem_str event (lit "Records") = inr records ->
  py_iter records = inr batch ->
  lambda_handler event context w =
  Outcome
    (match value (run_batch batch w) with
     | inr _ => inr response
     | inl e => inl e
     end)
    (events (run_batch batch w))
    (final (run_batch batch w)).
Proof.
  intros Hr Hb. unfold lambda_handler.
  rewrite bind_lift, Hr, bind_lift, Hb.
  fold (run_batch batch).
  destruct (value (run_batch batch w)) as [e | []] eqn:Hv.
  - rewrite (bind_raises (run_batch batch) _ w e Hv). reflexivity.
  - rewrite (bind_returns (run_batch batch) (fun _ => ret response) w tt Hv).
    cbn. rewrite app_nil_r. reflexivity.
Qed.

End BatchFacts.

(** * The claims *)

Lemma is_prefix_app (p x : pystr) : is_prefix p (p ++ x) = true.
Proof.
  induction p as [| c p IH]; [reflexivity |].
  cbn. rewrite N.eqb_refl. exact IH.
Qed.

Lemma destination_under_optimized (key : pystr) :
  is_prefix (lit "uploads/") key = true ->
  is_prefix (lit "optimized/")
    (replace key (lit "uploads/") (lit "optimized/")) = true.
Proof.
  intros Hp. rewrite (destination_of_accepted_key key Hp).
  apply is_prefix_app.
Qed.

Section MessageClaims.

Context {World Stream Img : Type} {env : Collaborators World Stream Img}.


(** A [put_object] call of a message goes to the bucket named in the
    message, after a [get_object] call on that bucket that returned. *)
Lemma message_put_bucket (record : pyval) (w : World)
    (b k : pyval) (body : bytes) (ct : string) (ok : bool) :
  In (Call (PutObject b k body ct) ok) (events (process_message record w)) ->
  exists key,
    extract record = inr (b, PyStr key) /\
    k = PyStr (replace key (lit "uploads/") (lit "optimized/")) /\
    In (Call (GetObject b (PyStr key)) true)
       (events (process_message record w)).
Proof.
  run_message record; intros Hin; simpl in Hin;
    repeat (destruct Hin as [Hin | Hin]; [try discriminate |]);
    try contradiction.
  all: injection Hin as <- <- <- <- <-.
  all: eexists; split; [reflexivity |]; split; [reflexivity |].
  all: cbn; right; left; reflexivity.
Qed.

(** C3.  For a message processed from any state of the world, an output
    artifact is written (a [put_object] call returns) if and only if the
    event of the message is accepted and the fetch, the decoding, the
    encoding and the write all return.  What is written is the encoded
    image, to the destination: the bucket of the message, the key of the
    message with [uploads/] replaced, which starts with [optimized/], and
    content type [image/jpeg].  At most one [put_object] call is made, so a
    failure of any step leaves nothing written for the message. *)
Theorem artifact_written_iff_pipeline_succeeds (record : pyval) (w : World) :
  (artifact_written (events (process_message record w)) <->
   pipeline_succeeds record w) /\
  (forall b k body ct,
     In (Call (PutObject b k body ct) true)
        (events (process_message record w)) ->
     exists key image,
       extract record = inr (b, PyStr key) /\
       is_prefix (lit "uploads/") key = true /\
       k = PyStr (replace key (lit "uploads/") (lit "optimized/")) /\
       is_prefix (lit "optimized/")
         (replace key (lit "uploads/") (lit "optimized/")) = true /\
       ct = "image/jpeg" /\
       image_save image "JPEG" 30 = inr body) /\
  count is_put_object (events (process_message record w)) <= 1.
Proof.
  unfold artifact_written, pipeline_succeeds, count.
  run_message record.
  all: split; [| split; [| cbn; lia]].
  all: try (intros b' k' body' ct' Hin; simpl in Hin;
            repeat (destruct Hin as [Hin | Hin]; [try discriminate |]);
            try contradiction).
  all: try (split;
    [ intros (b' & k' & body' & ct' & Hin); simpl in Hin;
      repeat (destruct Hin as [Hin | Hin]; [try discriminate |]);
      try contradiction
    | intros (b' & k' & st' & w1' & d' & w2' & im' & bf' & ok' & w3'
              & H1 & H2 & H3 & H4 & H5 & H6 & H7 & H8);
      try discriminate;
      injection H1 as <- <-; cbn [startswith] in H2; try discriminate;
      try (destruct (get_object_printable _ _ _ _ _ H3) as [Hpb Hpk];
           cbn [printable] in Hpk);
      try (exfalso; congruence) ]).
  - do 10 eexists. split; [reflexivity |].
    cbn [startswith str_replace]. rewrite Hprefix.
    repeat split; eassumption.
  - do 4 eexists. cbn. do 5 right. left. reflexivity.
  - injection Hin as <- <- <- <-. do 2 eexists.
    split; [reflexivity |]. split; [exact Hprefix |].
    split; [reflexivity |].
    split; [apply destination_under_optimized, Hprefix |].
    split; [reflexivity | eassumption].
Qed.

(** C5, as the code has it.  A message whose object key is a string that
    does not start with [uploads/] makes no call at all (no fetch, no
    decoding or encoding, no store), raises nothing and leaves the world as
    it was, and the batch goes on with the next message; when the key holds
    no lone surrogate, the message prints the skip line that names the key
    and nothing else. *)
Theorem non_upload_key_is_skipped
    (record bucket : pyval) (key : pystr) (rest : list pyval) (w : World) :
  extract record = inr (bucket, PyStr key) ->
  is_prefix (lit "uploads/") key = false ->
  (encodable key = true ->
   process_message record w =
     Outcome (inr tt) [Print (Skipping (PyStr key))] w) /\
  count is_call (events (process_message record w)) = 0 /\
  value (process_message record w) = inr tt /\
  final (process_message record w) = w /\
  run_batch (record :: rest) w =
    Outcome (value (run_batch rest w))
      (events (process_message record w) ++ events (run_batch rest w))
      (final (run_batch rest w)).
Proof.
  intros Hx Hp.
  destruct (extract_dict record _ Hx) as [entries ->].
  assert (Hm : process_message (PyDict entries) w =
               if encodable key
               then Outcome (inr tt) [Print (Skipping (PyStr key))] w
               else Outcome (inr tt)
                      (failure_lines (PyDict entries) UnicodeEncodeError) w).
  { unfold process_message, try_except. rewrite try_body_split, Hx.
    unfold transform. rewrite bind_lift. cbn [startswith]. rewrite Hp.
    unfold print. cbn [negb line_printable printable].
    destruct (encodable key); reflexivity. }
  split; [intros He; rewrite Hm, He; reflexivity |].
  rewrite (run_batch_cons (PyDict entries) rest w eq_refl), Hm.
  destruct (encodable key); repeat split.
Qed.


(** C7, as the code has it.  Whatever exception the [try] block of a
    message raises, at whatever step, the [except] clause catches it; when
    the batch item is not a string that holds a lone surrogate (a dict
    never is), the message ends without an exception, the trace is that of
    the [try] block followed by the line that shows the message and the
    line that shows the error, and the loop goes on with the rest of the
    batch. *)
Theorem exception_is_caught_and_logged
    (record : pyval) (rest : list pyval) (w : World) (e : exn) :
  value (try_body record w) = inl e ->
  printable record = true ->
  process_message record w =
    Outcome (inr tt)
      (events (try_body record w)
       ++ [Print (FailedMessage record); Print (ErrorDetail e)])
      (final (try_body record w)) /\
  run_batch (record :: rest) w =
    Outcome (value (run_batch rest (final (try_body record w))))
      ((events (try_body record w)
        ++ [Print (FailedMessage record); Print (ErrorDetail e)])
       ++ events (run_batch rest (final (try_body record w))))
      (final (run_batch rest (final (try_body record w)))).
Proof.
  intros H Hp.
  pose proof (process_message_caught record w e H Hp) as Hm.
  split; [exact Hm |].
  rewrite (run_batch_cons record rest w Hp), Hm. reflexivity.
Qed.

End MessageClaims.

Section BatchClaims.

Context {World Stream Img : Type} {env : Collaborators World Stream Img}.

(** C2, as the code has it.  In a batch with no item that is a string
    holding a lone surrogate (a batch of dicts, for one), when the message
    at some position fails, at whatever step of its [try] block, the batch
    raises nothing and the messages after it are processed as they would
    be in a batch of their own, started from the state the failed message
    left; each of them is attempted: what it does (at least one line) is
    part of the trace of the batch. *)
Theorem failed_message_does_not_stop_batch
    (before after : list pyval) (m : pyval) (e : exn) (t : trace)
    (w w1 w2 : World) :
  forallb printable (before ++ m :: after) = true ->
  final (run_batch before w) = w1 ->
  try_body m w1 = Outcome (inl e) t w2 ->
  run_batch (before ++ m :: after) w =
    Outcome (inr tt)
      (events (run_batch before w) ++ (t ++ failure_lines m e)
       ++ events (run_batch after w2))
      (final (run_batch after w2)) /\
  forall (j : nat) (m' : pyval),
    nth_error after j = Some m' ->
    exists w' t1 t2,
      events (run_batch (before ++ m :: after) w) =
        t1 ++ events (process_message m' w') ++ t2 /\
      events (process_message m' w') <> [].
Proof.
  intros Hall Hw1 Hm.
  rewrite forallb_app in Hall. apply andb_true_iff in Hall.
  destruct Hall as [Hbefore Hrest]. cbn [forallb] in Hrest.
  apply andb_true_iff in Hrest. destruct Hrest as [Hpm Hafter].
  assert (Hp : process_message m w1 =
               Outcome (inr tt) (t ++ failure_lines m e) w2).
  { rewrite (process_message_caught m w1 e); rewrite ?Hm;
      reflexivity || exact Hpm. }
  assert (Hrun : run_batch (before ++ m :: after) w =
            Outcome (inr tt)
              (events (run_batch before w) ++ (t ++ failure_lines m e)
               ++ events (run_batch after w2))
              (final (run_batch after w2))).
  { rewrite (run_batch_app before (m :: after) w
               (run_batch_returns before w Hbefore)).
    rewrite Hw1, (run_batch_cons m after w1 Hpm), Hp. cbn [value events final].
    rewrite (run_batch_returns after w2 Hafter). reflexivity. }
  split; [exact Hrun |].
  intros j m' Hj.
  destruct (run_batch_attempts after w2 j m' Hafter Hj)
    as (w' & t1 & t2 & Heq).
  exists w',
    (events (run_batch before w) ++ (t ++ failure_lines m e) ++ t1), t2.
  split.
  - rewrite Hrun. cbn [events]. rewrite Heq, <- !app_assoc. reflexivity.
  - apply process_message_prints.
    apply nth_error_In in Hj.
    apply (proj1 (forallb_forall printable after) Hafter m' Hj).
Qed.

(** C4, as the code has it.  When [event['Records']] is there and can be
    iterated over (an empty list included) and no item of it is a string
    that holds a lone surrogate (a dict never is), the handler returns
    [{'statusCode': 200, 'body': 'Batch processed'}], whatever the
    messages are and whatever happens to each of them. *)
Theorem handler_always_acknowledges
    (event context records : pyval) (batch : list pyval) (w : World) :
  getitem_str event (lit "Records") = inr records ->
  py_iter records = inr batch ->
  forallb printable batch = true ->
  value (lambda_handler event context w) =
    inr (PyDict [(lit "statusCode", PyInt 200);
                 (lit "body", PyStr (lit "Batch processed"))]).
Proof.
  intros Hr Hb Hp.
  rewrite (lambda_handler_batch event context records batch w Hr Hb).
  cbn [value]. rewrite (run_batch_returns batch w Hp). reflexivity.
Qed.

(** C8.  A batch with one message whose key is [uploads/photo.jpg], when
    the fetch returns bytes that the codec decodes and encodes again: the
    handler fetches the object, encodes it as JPEG at quality 30 and calls
    [put_object] on the same bucket with key [optimized/photo.jpg], the
    encoded bytes and content type [image/jpeg]; when that call returns,
    the handler prints the line that names the key and does nothing
    else. *)
Theorem single_upload_is_optimized
    (event context record bucket : pyval) (stream : Stream) (data : bytes)
    (image : Img) (buffer : bytes) (r : result unit) (w w1 w2 w3 : World) :
  getitem_str event (lit "Records") = inr (PyList [record]) ->
  extract record = inr (bucket, PyStr (lit "uploads/photo.jpg")) ->
  s3_get_object bucket (PyStr (lit "uploads/photo.jpg")) w
    = (inr stream, w1) ->
  stream_read stream w1 = (inr data, w2) ->
  image_open data = inr image ->
  image_save image "JPEG" 30 = inr buffer ->
  s3_put_object bucket (PyStr (lit "optimized/photo.jpg")) buffer
    "image/jpeg" w2 = (r, w3) ->
  exists rest,
    lambda_handler event context w =
      Outcome (inr response)
        ([Print (Processing (PyStr (lit "uploads/photo.jpg")) bucket);
          Call (GetObject bucket (PyStr (lit "uploads/photo.jpg"))) true;
          Call ReadBody true;
          Call (ImageOpen data) true;
          Call (ImageSave "JPEG" 30) true;
          Call (PutObject bucket (PyStr (lit "optimized/photo.jpg")) buffer
                  "image/jpeg") (is_ok r)] ++ rest)
        w3 /\
    (is_ok r = true ->
     rest = [Print (Saved (PyStr (lit "optimized/photo.jpg")))]).
Proof.
  intros Hr Hx Hget Hread Hopen Hsave Hput.
  destruct (extract_dict record _ Hx) as [entries ->].
  destruct (get_object_printable _ _ _ _ _ Hget) as [Hpb _].
  rewrite (lambda_handler_batch event context _ [PyDict entries] w
             Hr eq_refl).
  rewrite (run_batch_cons (PyDict entries) [] w eq_refl).
  unfold process_message, try_except. rewrite try_body_split, Hx.
  unfold transform, bind, lift, invoke, invoke_pure, print, startswith,
    str_replace.
  change (replace (lit "uploads/photo.jpg") (lit "uploads/")
            (lit "optimized/"))
    with (lit "optimized/photo.jpg").
  change (is_prefix (lit "uploads/") (lit "uploads/photo.jpg")) with true.
  cbn [negb is_ok app line_printable printable].
  change (encodable (lit "uploads/photo.jpg")) with true.
  change (encodable (lit "optimized/photo.jpg")) with true.
  rewrite Hpb. cbn [negb is_ok app andb].
  rewrite Hget. cbn [is_ok app].
  rewrite Hread. cbn [is_ok app]. rewrite Hopen. cbn [is_ok app].
  rewrite Hsave. cbn [is_ok app]. rewrite Hput. destruct r as [e' | []]; cbn.
  - eexists. split; [reflexivity |]. discriminate.
  - eexists. split; [reflexivity |]. reflexivity.
Qed.

(** C9.  Every [put_object] call of a batch goes to the bucket named in
    the message it comes from, with the key derived from the key of that
    message, and the batch has called [get_object] on that same bucket and
    that key, with success. *)
Theorem put_targets_source_bucket
    (batch : list pyval) (w : World)
    (b k : pyval) (body : bytes) (ct : string) (ok : bool) :
  In (Call (PutObject b k body ct) ok) (events (run_batch batch w)) ->
  exists m key,
    In m batch /\
    extract m = inr (b, PyStr key) /\
    k = PyStr (replace key (lit "uploads/") (lit "optimized/")) /\
    In (Call (GetObject b (PyStr key)) true) (events (run_batch batch w)).
Proof.
  intros Hin.
  destruct (run_batch_event_origin batch w _ Hin)
    as (m & w' & t1 & t2 & Hm & Hev & Heq).
  destruct (message_put_bucket m w' b k body ct ok Hev)
    as (key & Hx & Hk & Hget).
  exists m, key. repeat split; try assumption.
  rewrite Heq. apply in_or_app. right. apply in_or_app. left. exact Hget.
Qed.

(** C10.  An event without a ['Records'] key, or whose ['Records'] value
    cannot be iterated over, makes the handler raise (a [KeyError] or a
    [TypeError]) before anything is printed or called: the handler does not
    return its acknowledgment. *)
Theorem malformed_event_raises (context : pyval) (w : World) :
  (forall entries,
     dict_get (lit "Records") entries = None ->
     lambda_handler (PyDict entries) context w =
       Outcome (inl (KeyError (PyStr (lit "Records")))) [] w) /\
  (forall event records e,
     getitem_str event (lit "Records") = inr records ->
     py_iter records = inl e ->
     lambda_handler event context w = Outcome (inl e) [] w) /\
  (forall event e,
     getitem_str event (lit "Records") = inl e ->
     lambda_handler event context w = Outcome (inl e) [] w).
Proof.
  repeat split.
  - intros entries H. unfold lambda_handler. rewrite bind_lift.
    cbn [getitem_str]. rewrite H. reflexivity.
  - intros event records e Hr Hi. unfold lambda_handler.
    rewrite bind_lift, Hr, bind_lift, Hi. reflexivity.
  - intros event e Hr. unfold lambda_handler.
    rewrite bind_lift, Hr. reflexivity.
Qed.

End BatchClaims.

(** * The scenarios, on the in-memory collaborators *)

Import Fixture.

(** C1.  The key [uploads/a/uploads/b.jpg] is stored under
    [optimized/a/optimized/b.jpg]: [str.replace] without a count rewrites
    the second occurrence as well, where a replacement of the first
    occurrence only gives [optimized/a/uploads/b.jpg]. *)
Theorem nested_prefix_is_replaced_too :
  str_replace (PyStr (lit "uploads/a/uploads/b.jpg"))
    (lit "uploads/") (lit "optimized/") =
    inr (PyStr (lit "optimized/a/optimized/b.jpg")) /\
  replace_first (lit "uploads/a/uploads/b.jpg")
    (lit "uploads/") (lit "optimized/") =
    lit "optimized/a/uploads/b.jpg" /\
  events (lambda_handler (batch_event ["images uploads/a/uploads/b.jpg"])
            PyNone initial) =
    [Print (Processing (PyStr (lit "uploads/a/uploads/b.jpg"))
              (PyStr (lit "images")));
     Call (GetObject (PyStr (lit "images"))
             (PyStr (lit "uploads/a/uploads/b.jpg"))) true;
     Call ReadBody true;
     Call (ImageOpen photo) true;
     Call (ImageSave "JPEG" 30) true;
     Call (PutObject (PyStr (lit "images"))
             (PyStr (lit "optimized/a/optimized/b.jpg"))
             encoded_photo "image/jpeg") true;
     Print (Saved (PyStr (lit "optimized/a/optimized/b.jpg")))].
Proof. repeat split. Qed.

(** Two different uploads end under one destination key. *)
Example destination_keys_collide :
  replace (lit "uploads/a/uploads/b.jpg") (lit "uploads/") (lit "optimized/") =
  replace (lit "uploads/a/optimized/b.jpg") (lit "uploads/")
    (lit "optimized/").
Proof. reflexivity. Qed.

(** Scenario 1 of the specification. *)
Example scenario_upload :
  lambda_handler (batch_event ["images uploads/photo.jpg"]) PyNone initial =
  Outcome (inr response)
    [Print (Processing (PyStr (lit "uploads/photo.jpg"))
              (PyStr (lit "images")));
     Call (GetObject (PyStr (lit "images"))
             (PyStr (lit "uploads/photo.jpg"))) true;
     Call ReadBody true;
     Call (ImageOpen photo) true;
     Call (ImageSave "JPEG" 30) true;
     Call (PutObject (PyStr (lit "images"))
             (PyStr (lit "optimized/photo.jpg"))
             encoded_photo "image/jpeg") true;
     Print (Saved (PyStr (lit "optimized/photo.jpg")))]
    (Store ((lit "images", lit "optimized/photo.jpg", encoded_photo)
            :: objects initial) (write_denied initial)).
Proof. reflexivity. Qed.

(** Scenario 2: a key outside [uploads/]. *)
Example scenario_skip :
  lambda_handler (batch_event ["images thumbnails/photo.jpg"]) PyNone initial =
  Outcome (inr response)
    [Print (Skipping (PyStr (lit "thumbnails/photo.jpg")))] initial.
Proof. reflexivity. Qed.

(** Scenario 3: a body that does not parse. *)
Example scenario_malformed :
  lambda_handler (batch_event ["!oops"]) PyNone initial =
  Outcome (inr response)
    [Print (FailedMessage (message "!oops"));
     Print (ErrorDetail (Raised "JSONDecodeError" "Expecting value"))]
    initial.
Proof. reflexivity. Qed.

(** Scenario 4: a missing object, then a valid upload. *)
Example scenario_fetch_error_then_upload :
  artifact_written
    (events (lambda_handler
               (batch_event ["images uploads/missing.jpg";
                             "images uploads/photo.jpg"])
               PyNone initial)) /\
  find_object (lit "images") (lit "optimized/photo.jpg")
    (objects (final (lambda_handler
                       (batch_event ["images uploads/missing.jpg";
                                     "images uploads/photo.jpg"])
                       PyNone initial))) = Some encoded_photo.
Proof.
  split; [| reflexivity].
  exists (PyStr (lit "images")), (PyStr (lit "optimized/photo.jpg")),
    encoded_photo, "image/jpeg".
  vm_compute. do 9 right. left. reflexivity.
Qed.

(** The exception of each step reaches the [except] clause. *)
Example parse_error_raised :
  value (try_body (message "!oops") initial) =
  inl (Raised "JSONDecodeError" "Expecting value").
Proof. reflexivity. Qed.

Example shape_error_raised :
  value (try_body (message "no-s3-entry") initial) =
  inl (KeyError (PyStr (lit "s3"))).
Proof. reflexivity. Qed.

Example fetch_error_raised :
  value (try_body (message "images uploads/missing.jpg") initial) =
  inl (Raised "ClientError" "NoSuchKey").
Proof. reflexivity. Qed.

Example codec_error_raised :
  value (try_body (message "images uploads/notes.txt") initial) =
  inl (Raised "UnidentifiedImageError" "cannot identify image file").
Proof. reflexivity. Qed.

Example store_error_raised :
  value (try_body (message "vault uploads/photo.jpg") initial) =
  inl (Raised "ClientError" "AccessDenied").
Proof. reflexivity. Qed.

(** A ['Records'] value that is a string is iterated over character by
    character: each character fails as a message and the handler returns
    its acknowledgment. *)
Example records_string_is_iterated :
  value (lambda_handler (PyDict [(lit "Records", PyStr (lit "ab"))])
           PyNone initial) =
  inr response.
Proof. reflexivity. Qed.

(** An accepted key that holds a lone surrogate: line 24 raises, nothing
    is fetched. *)
Example unprintable_upload_is_not_fetched :
  process_message (raw_message (lit "images uploads/" ++ lone_surrogate))
    initial =
  Outcome (inr tt)
    (failure_lines (raw_message (lit "images uploads/" ++ lone_surrogate))
       UnicodeEncodeError)
    initial.
Proof. reflexivity. Qed.

(** ** Where the code departs from the claims *)

(** C2.  The first item of this batch is a string that holds a lone
    surrogate.  It fails as a message (it has no ['body']); the line of the
    [except] clause that should show it raises, the handler raises with it
    and the message after it is never attempted. *)
Lemma unprintable_item_stops_batch :
  try_body (PyStr lone_surrogate) initial =
    Outcome (inl TypeError) [] initial /\
  lambda_handler
    (raw_event [PyStr lone_surrogate; message "images uploads/photo.jpg"])
    PyNone initial =
  Outcome (inl UnicodeEncodeError) [] initial.
Proof. split; reflexivity. Qed.

(** C4.  The event has a ['Records'] list, and the handler raises instead
    of returning its acknowledgment. *)
Lemma unprintable_item_no_acknowledgment :
  getitem_str (raw_event [PyStr lone_surrogate]) (lit "Records") =
    inr (PyList [PyStr lone_surrogate]) /\
  value (lambda_handler (raw_event [PyStr lone_surrogate]) PyNone initial) =
    inl UnicodeEncodeError.
Proof. split; reflexivity. Qed.

(** C5.  The key of this message is a string that does not start with
    [uploads/]; the skip line is not printed and the message ends as a
    failed one. *)
Lemma unprintable_key_is_not_skipped :
  extract (raw_message (lit "images " ++ lone_surrogate)) =
    inr (PyStr (lit "images"), PyStr lone_surrogate) /\
  is_prefix (lit "uploads/") lone_surrogate = false /\
  process_message (raw_message (lit "images " ++ lone_surrogate)) initial =
    Outcome (inr tt)
      (failure_lines (raw_message (lit "images " ++ lone_surrogate))
         UnicodeEncodeError)
      initial /\
  ~ In (Print (Skipping (PyStr lone_surrogate)))
       (events (process_message
                  (raw_message (lit "images " ++ lone_surrogate)) initial)).
Proof.
  split; [reflexivity |]. split; [reflexivity |]. split; [reflexivity |].
  vm_compute. intros [H | [H | []]]; discriminate.
Qed.

(** C7.  The [try] block of this batch item raises a [TypeError]; no line
    is printed for it and a [UnicodeEncodeError] leaves the handler. *)
Lemma unprintable_item_escapes :
  value (try_body (PyStr lone_surrogate) initial) = inl TypeError /\
  process_message (PyStr lone_surrogate) initial =
    Outcome (inl UnicodeEncodeError) [] initial /\
  value (lambda_handler (raw_event [PyStr lone_surrogate]) PyNone initial) =
    inl UnicodeEncodeError.
Proof. repeat split. Qed.

(** ** The theorems at concrete inputs *)

Lemma artifact_written_iff_pipeline_succeeds_witness :
  artifact_written
    (events (process_message (message "images uploads/photo.jpg") initial)) /\
  pipeline_succeeds (message "images uploads/photo.jpg") initial.
Proof.
  assert (H : artifact_written
    (events (process_message (message "images uploads/photo.jpg") initial))).
  { exists (PyStr (lit "images")), (PyStr (lit "optimized/photo.jpg")),
      encoded_photo, "image/jpeg".
    vm_compute. do 5 right. left. reflexivity. }
  split; [exact H |].
  apply (proj1 (proj1 (artifact_written_iff_pipeline_succeeds
                         (message "images uploads/photo.jpg") initial))).
  exact H.
Defined.

Lemma failed_message_does_not_stop_batch_witness :
  run_batch ([message "images uploads/photo.jpg"]
             ++ message "images uploads/missing.jpg"
             :: [message "images uploads/a/uploads/b.jpg"]) initial =
    Outcome (inr tt)
      (events (run_batch [message "images uploads/photo.jpg"] initial)
       ++ ([Print (Processing (PyStr (lit "uploads/missing.jpg"))
                     (PyStr (lit "images")));
            Call (GetObject (PyStr (lit "images"))
                    (PyStr (lit "uploads/missing.jpg")))
              false]
           ++ failure_lines (message "images uploads/missing.jpg")
                (Raised "ClientError" "NoSuchKey"))
       ++ events (run_batch [message "images uploads/a/uploads/b.jpg"]
                    (Store ((lit "images", lit "optimized/photo.jpg",
                             encoded_photo)
                            :: objects initial) (write_denied initial))))
      (final (run_batch [message "images uploads/a/uploads/b.jpg"]
                (Store ((lit "images", lit "optimized/photo.jpg",
                         encoded_photo)
                        :: objects initial) (write_denied initial)))) /\
  forall (j : nat) (m' : pyval),
    nth_error [message "images uploads/a/uploads/b.jpg"] j = Some m' ->
    exists w' t1 t2,
      events (run_batch ([message "images uploads/photo.jpg"]
                         ++ message "images uploads/missing.jpg"
                         :: [message "images uploads/a/uploads/b.jpg"])
                initial) =
        t1 ++ events (process_message m' w') ++ t2 /\
      events (process_message m' w') <> [].
Proof.
  refine (failed_message_does_not_stop_batch
            [message "images uploads/photo.jpg"]
            [message "images uploads/a/uploads/b.jpg"]
            (message "images uploads/missing.jpg")
            (Raised "ClientError" "NoSuchKey")
            [Print (Processing (PyStr (lit "uploads/missing.jpg"))
                      (PyStr (lit "images")));
             Call (GetObject (PyStr (lit "images"))
                     (PyStr (lit "uploads/missing.jpg")))
               false]
            initial
            (Store ((lit "images", lit "optimized/photo.jpg", encoded_photo)
                    :: objects initial) (write_denied initial))
            (Store ((lit "images", lit "optimized/photo.jpg", encoded_photo)
                    :: objects initial) (write_denied initial))
            _ _ _);
    vm_compute; reflexivity.
Defined.

Lemma handler_always_acknowledges_witness :
  value (lambda_handler
           (batch_event ["!oops"; "images uploads/missing.jpg";
                         "vault uploads/photo.jpg"])
           PyNone initial) =
  inr (PyDict [(lit "statusCode", PyInt 200);
               (lit "body", PyStr (lit "Batch processed"))]).
Proof.
  refine (handler_always_acknowledges
            (batch_event ["!oops"; "images uploads/missing.jpg";
                          "vault uploads/photo.jpg"])
            PyNone
            (PyList (map message ["!oops"; "images uploads/missing.jpg";
                                  "vault uploads/photo.jpg"]))
            (map message ["!oops"; "images uploads/missing.jpg";
                          "vault uploads/photo.jpg"])
            initial _ _ _);
    vm_compute; reflexivity.
Defined.

Lemma non_upload_key_is_skipped_witness :
  process_message (message "images thumbnails/photo.jpg") initial =
    Outcome (inr tt) [Print (Skipping (PyStr (lit "thumbnails/photo.jpg")))]
      initial /\
  count is_call
    (events (process_message (message "images thumbnails/photo.jpg") initial))
    = 0 /\
  run_batch [message "images thumbnails/photo.jpg";
             message "images uploads/photo.jpg"] initial =
    Outcome (value (run_batch [message "images uploads/photo.jpg"] initial))
      (events (process_message (message "images thumbnails/photo.jpg")
                 initial)
       ++ events (run_batch [message "images uploads/photo.jpg"] initial))
      (final (run_batch [message "images uploads/photo.jpg"] initial)).
Proof.
  destruct (non_upload_key_is_skipped
              (message "images thumbnails/photo.jpg") (PyStr (lit "images"))
              (lit "thumbnails/photo.jpg")
              [message "images uploads/photo.jpg"] initial)
    as (Hskip & Hcalls & _ & _ & Hnext); try (vm_compute; reflexivity).
  split; [| split].
  - apply Hskip. vm_compute; reflexivity.
  - exact Hcalls.
  - exact Hnext.
Defined.


Lemma exception_is_caught_and_logged_witness :
  process_message (message "vault uploads/photo.jpg") initial =
    Outcome (inr tt)
      (events (try_body (message "vault uploads/photo.jpg") initial)
       ++ [Print (FailedMessage (message "vault uploads/photo.jpg"));
           Print (ErrorDetail (Raised "ClientError" "AccessDenied"))])
      (final (try_body (message "vault uploads/photo.jpg") initial)) /\
  run_batch [message "vault uploads/photo.jpg";
             message "images uploads/photo.jpg"] initial =
    Outcome
      (value (run_batch [message "images uploads/photo.jpg"]
                (final (try_body (message "vault uploads/photo.jpg")
                          initial))))
      ((events (try_body (message "vault uploads/photo.jpg") initial)
        ++ [Print (FailedMessage (message "vault uploads/photo.jpg"));
            Print (ErrorDetail (Raised "ClientError" "AccessDenied"))])
       ++ events (run_batch [message "images uploads/photo.jpg"]
                    (final (try_body (message "vault uploads/photo.jpg")
                              initial))))
      (final (run_batch [message "images uploads/photo.jpg"]
                (final (try_body (message "vault uploads/photo.jpg")
                          initial)))).
Proof.
  refine (exception_is_caught_and_logged
            (message "vault uploads/photo.jpg")
            [message "images uploads/photo.jpg"] initial
            (Raised "ClientError" "AccessDenied") _ _);
    vm_compute; reflexivity.
Defined.

Lemma single_upload_is_optimized_witness :
  exists rest,
    lambda_handler (batch_event ["images uploads/photo.jpg"]) PyNone initial =
      Outcome (inr response)
        ([Print (Processing (PyStr (lit "uploads/photo.jpg"))
                   (PyStr (lit "images")));
          Call (GetObject (PyStr (lit "images"))
                  (PyStr (lit "uploads/photo.jpg"))) true;
          Call ReadBody true;
          Call (ImageOpen photo) true;
          Call (ImageSave "JPEG" 30) true;
          Call (PutObject (PyStr (lit "images"))
                  (PyStr (lit "optimized/photo.jpg"))
                  encoded_photo "image/jpeg") (is_ok (inr tt))] ++ rest)
        (Store ((lit "images", lit "optimized/photo.jpg", encoded_photo)
                :: objects initial) (write_denied initial)) /\
    (is_ok (@inr exn unit tt) = true ->
     rest = [Print (Saved (PyStr (lit "optimized/photo.jpg")))]).
Proof.
  refine (single_upload_is_optimized
            (batch_event ["images uploads/photo.jpg"]) PyNone
            (message "images uploads/photo.jpg") (PyStr (lit "images"))
            photo photo [x01; x02; x03] encoded_photo (inr tt)
            initial initial initial
            (Store ((lit "images", lit "optimized/photo.jpg", encoded_photo)
                    :: objects initial) (write_denied initial))
            _ _ _ _ _ _ _);
    vm_compute; reflexivity.
Defined.

Lemma put_targets_source_bucket_witness :
  exists m key,
    In m (map message ["vault uploads/photo.jpg";
                       "images uploads/photo.jpg"]) /\
    extract m = inr (PyStr (lit "images"), PyStr key) /\
    PyStr (lit "optimized/photo.jpg") =
      PyStr (replace key (lit "uploads/") (lit "optimized/")) /\
    In (Call (GetObject (PyStr (lit "images")) (PyStr key)) true)
       (events (run_batch (map message ["vault uploads/photo.jpg";
                                        "images uploads/photo.jpg"])
                  initial)).
Proof.
  apply (put_targets_source_bucket
           (map message ["vault uploads/photo.jpg";
                         "images uploads/photo.jpg"])
           initial (PyStr (lit "images")) (PyStr (lit "optimized/photo.jpg"))
           encoded_photo "image/jpeg" true).
  vm_compute. do 13 right. left. reflexivity.
Defined.

Lemma malformed_event_raises_witness :
  lambda_handler (PyDict [(lit "records", PyList [])]) PyNone initial =
    Outcome (inl (KeyError (PyStr (lit "Records")))) [] initial /\
  lambda_handler (PyDict [(lit "Records", PyInt 3)]) PyNone initial =
    Outcome (inl TypeError) [] initial /\
  lambda_handler (PyList []) PyNone initial =
    Outcome (inl TypeError) [] initial.
Proof.
  destruct (malformed_event_raises PyNone initial) as (H1 & H2 & H3).
  split; [| split].
  - apply (H1 [(lit "records", PyList [])]). reflexivity.
  - apply (H2 (PyDict [(lit "Records", PyInt 3)]) (PyInt 3) TypeError);
      reflexivity.
  - apply (H3 (PyList []) TypeError). reflexivity.
Defined.

(** * Further properties of the handler *)

(** ** Destination keys *)

(** X8.  For a key under [uploads/] whose remainder holds no further
    [uploads/], line 37 swaps the prefix and keeps the remainder as it is;
    on such keys it does what a replacement of the first occurrence
    does. *)
Theorem simple_key_prefix_swap (key : pystr) :
  is_prefix (lit "uploads/") key = true ->
  contains (skipn 8 key) (lit "uploads/") = false ->
  str_replace (PyStr key) (lit "uploads/") (lit "optimized/") =
    inr (PyStr (lit "optimized/" ++ skipn 8 key)) /\
  replace key (lit "uploads/") (lit "optimized/") =
    replace_first key (lit "uploads/") (lit "optimized/").
Proof.
  intros Hp Hc.
  assert (Hr : replace key (lit "uploads/") (lit "optimized/") =
               lit "optimized/" ++ skipn 8 key).
  { rewrite (destination_of_accepted_key key Hp).
    rewrite (replace_absent (lit "uploads/") (lit "optimized/")
               (skipn 8 key) lit_uploads_nonempty Hc).
    reflexivity. }
  split.
  - cbn [str_replace]. rewrite Hr. reflexivity.
  - rewrite Hr.
    rewrite (replace_first_at_prefix (lit "uploads/") (lit "optimized/") key
               lit_uploads_nonempty Hp).
    reflexivity.
Qed.

(** X9.  Two different keys under [uploads/] whose remainders hold no
    further [uploads/] get different destination keys: such uploads never
    overwrite each other's output. *)
Theorem simple_keys_do_not_collide (key1 key2 : pystr) :
  is_prefix (lit "uploads/") key1 = true ->
  is_prefix (lit "uploads/") key2 = true ->
  contains (skipn 8 key1) (lit "uploads/") = false ->
  contains (skipn 8 key2) (lit "uploads/") = false ->
  key1 <> key2 ->
  replace key1 (lit "uploads/") (lit "optimized/") <>
  replace key2 (lit "uploads/") (lit "optimized/").
Proof.
  intros Hp1 Hp2 Hc1 Hc2 Hne Heq. apply Hne.
  rewrite (destination_of_accepted_key key1 Hp1) in Heq.
  rewrite (destination_of_accepted_key key2 Hp2) in Heq.
  rewrite (replace_absent (lit "uploads/") (lit "optimized/")
             (skipn 8 key1) lit_uploads_nonempty Hc1) in Heq.
  rewrite (replace_absent (lit "uploads/") (lit "optimized/")
             (skipn 8 key2) lit_uploads_nonempty Hc2) in Heq.
  apply app_inv_head in Heq.
  rewrite (is_prefix_split (lit "uploads/") key1 Hp1).
  rewrite (is_prefix_split (lit "uploads/") key2 Hp2).
  change (List.length (lit "uploads/")) with 8.
  rewrite Heq. reflexivity.
Qed.

(** ** What one message does *)

Lemma count_app (p : event -> bool) (t1 t2 : trace) :
  count p (t1 ++ t2) = count p t1 + count p t2.
Proof. unfold count. rewrite filter_app, length_app. reflexivity. Qed.

Lemma quiet_after_failure_spec (t : trace) :
  quiet_after_failure t = true ->
  forall t1 c t2, t = t1 ++ Call c false :: t2 -> count is_call t2 = 0.
Proof.
  intros H t1. revert t H.
  induction t1 as [| ev t1 IH]; intros t H c t2 ->.
  - cbn in H. unfold count. clear -H.
    induction t2 as [| ev t2 IH]; [reflexivity |].
    cbn in H. apply andb_true_iff in H. destruct H as [Hev H].
    cbn. destruct (is_call ev); [discriminate |]. apply IH, H.
  - destruct ev as [l | c' [|]]; cbn in H.
    + apply (IH _ H c t2 eq_refl).
    + apply (IH _ H c t2 eq_refl).
    + rewrite forallb_app in H. apply andb_true_iff in H.
      destruct H as [_ H]. cbn in H. discriminate.
Qed.

Section MessageExtras.

Context {World Stream Img : Type} {env : Collaborators World Stream Img}.

Lemma message_one_verdict (record : pyval) (w : World) :
  printable record = true ->
  count is_verdict (events (process_message record w)) = 1.
Proof.
  unfold count. run_message record; intros H; try discriminate; reflexivity.
Qed.

Lemma message_gets (record : pyval) (w : World) :
  count is_get_object (events (process_message record w)) =
  if reaches_fetch record then 1 else 0.
Proof. unfold count, reaches_fetch. run_message record; reflexivity. Qed.

Lemma message_puts_le_gets (record : pyval) (w : World) :
  count is_put_object (events (process_message record w)) <=
  count is_get_object (events (process_message record w)).
Proof. unfold count. run_message record; cbn; lia. Qed.

Lemma message_rejected_noop (record : pyval) (w : World) :
  accepted record = false ->
  final (process_message record w) = w /\
  count is_call (events (process_message record w)) = 0.
Proof.
  unfold count, accepted.
  run_message record; intros H; try discriminate; split; reflexivity.
Qed.

Lemma message_quiet_after_failure (record : pyval) (w : World) :
  quiet_after_failure (events (process_message record w)) = true.
Proof. run_message record; reflexivity. Qed.

Lemma message_get_key (record : pyval) (w : World)
    (b k : pyval) (ok : bool) :
  In (Call (GetObject b k) ok) (events (process_message record w)) ->
  exists s, k = PyStr s /\ is_prefix (lit "uploads/") s = true.
Proof.
  run_message record; intros Hin; simpl in Hin;
    repeat (destruct Hin as [Hin | Hin]; [try discriminate |]);
    try contradiction.
  all: injection Hin as <- <- <-.
  all: eexists; split; [reflexivity | assumption].
Qed.

Lemma message_put_key (record : pyval) (w : World)
    (b k : pyval) (body : bytes) (ct : string) (ok : bool) :
  In (Call (PutObject b k body ct) ok) (events (process_message record w)) ->
  exists s,
    k = PyStr (replace s (lit "uploads/") (lit "optimized/")) /\
    is_prefix (lit "uploads/") s = true.
Proof.
  run_message record; intros Hin; simpl in Hin;
    repeat (destruct Hin as [Hin | Hin]; [try discriminate |]);
    try contradiction.
  all: injection Hin as <- <- <- <- <-.
  all: eexists; split; [reflexivity | assumption].
Qed.

Lemma message_saved_iff (record : pyval) (w : World) (k : pyval) :
  In (Print (Saved k)) (events (process_message record w)) <->
  exists b body ct,
    In (Call (PutObject b k body ct) true) (events (process_message record w)).
Proof.
  run_message record.
  all: split;
    [ intros Hin
    | intros (b' & body' & ct' & Hin) ];
    simpl in Hin;
    repeat (destruct Hin as [Hin | Hin]; [try discriminate |]);
    try contradiction.
  - injection Hin as <-. do 3 eexists. cbn. do 5 right. left. reflexivity.
  - injection Hin as <- <- <- <-. cbn. do 6 right. left. reflexivity.
Qed.

End MessageExtras.

(** ** What a batch does *)

Section BatchExtras.

Context {World Stream Img : Type} {env : Collaborators World Stream Img}.

(** The events of an invocation are those of the loop over some batch:
    the items of [event['Records']], or nothing when the handler raises
    before the loop. *)
Lemma lambda_handler_events (event context : pyval) (w : World) :
  exists batch,
    events (lambda_handler event context w) = events (run_batch batch w).
Proof.
  destruct (getitem_str event (lit "Records")) as [e | records] eqn:Hr.
  - exists []. unfold lambda_handler. rewrite bind_lift, Hr. reflexivity.
  - destruct (py_iter records) as [e | batch] eqn:Hb.
    + exists []. unfold lambda_handler.
      rewrite bind_lift, Hr, bind_lift, Hb. reflexivity.
    + exists batch.
      rewrite (lambda_handler_batch event context records batch w Hr Hb).
      reflexivity.
Qed.

(** The handler returns only when every item of the batch can be
    printed. *)
Lemma lambda_handler_returned (event context records v : pyval)
    (batch : list pyval) (w : World) :
  getitem_str event (lit "Records") = inr records ->
  py_iter records = inr batch ->
  value (lambda_handler event context w) = inr v ->
  forallb printable batch = true.
Proof.
  intros Hr Hb Hv.
  rewrite (lambda_handler_batch event context records batch w Hr Hb) in Hv.
  cbn [value] in Hv.
  destruct (forallb printable batch) eqn:Hp; [reflexivity |].
  rewrite (run_batch_raises batch w Hp) in Hv. discriminate.
Qed.

Lemma run_batch_count (p : event -> bool) (f : pyval -> nat) :
  (forall m w,
     printable m = true -> count p (events (process_message m w)) = f m) ->
  forall batch w,
    forallb printable batch = true ->
    count p (events (run_batch batch w)) = list_sum (map f batch).
Proof.
  intros Hm. induction batch as [| m batch IH]; intros w Hp.
  - reflexivity.
  - cbn [forallb] in Hp. apply andb_true_iff in Hp. destruct Hp as [Hx Hp].
    rewrite (run_batch_cons m batch w Hx). cbn [events].
    rewrite count_app, (Hm m w Hx), (IH _ Hp). reflexivity.
Qed.

Lemma run_batch_puts_le_gets (batch : list pyval) :
  forall w,
    count is_put_object (events (run_batch batch w)) <=
    count is_get_object (events (run_batch batch w)).
Proof.
  induction batch as [| m batch IH]; intros w.
  - cbn. lia.
  - destruct (printable m) eqn:Hm.
    + rewrite (run_batch_cons m batch w Hm). cbn [events].
      rewrite !count_app.
      pose proof (message_puts_le_gets m w).
      pose proof (IH (final (process_message m w))). lia.
    + rewrite (run_batch_cons_unprintable m batch w Hm). cbn. lia.
Qed.

Lemma run_batch_rejected (batch : list pyval) :
  forall w,
    (forall m, In m batch -> accepted m = false) ->
    final (run_batch batch w) = w /\
    count is_call (events (run_batch batch w)) = 0.
Proof.
  induction batch as [| m batch IH]; intros w H.
  - split; reflexivity.
  - destruct (printable m) eqn:Hm.
    + rewrite (run_batch_cons m batch w Hm). cbn [events final].
      rewrite count_app.
      destruct (message_rejected_noop m w (H m (or_introl eq_refl)))
        as [Hf Hc].
      rewrite Hf, Hc.
      apply IH. intros m' Hm'. apply H. right. exact Hm'.
    + rewrite (run_batch_cons_unprintable m batch w Hm).
      split; reflexivity.
Qed.

(** X1.  Processing a batch in one invocation does what two invocations
    do, one on a first part of the batch and one on the rest, started from
    the state the first one leaves: the same events in the same order, the
    same final state, the same return value.  When the invocation on the
    first part raises, the invocation on the whole batch raises in the same
    way, at the same point, and the rest is never processed. *)
Theorem handler_splits_batch
    (event event1 event2 context : pyval) (l1 l2 : list pyval) (w : World) :
  getitem_str event (lit "Records") = inr (PyList (l1 ++ l2)) ->
  getitem_str event1 (lit "Records") = inr (PyList l1) ->
  getitem_str event2 (lit "Records") = inr (PyList l2) ->
  lambda_handler event context w =
  match value (lambda_handler event1 context w) with
  | inr _ =>
      Outcome (value (lambda_handler event2 context
                        (final (lambda_handler event1 context w))))
        (events (lambda_handler event1 context w)
         ++ events (lambda_handler event2 context
                      (final (lambda_handler event1 context w))))
        (final (lambda_handler event2 context
                  (final (lambda_handler event1 context w))))
  | inl _ => lambda_handler event1 context w
  end.
Proof.
  intros H H1 H2.
  rewrite (lambda_handler_batch event context _ (l1 ++ l2) w H eq_refl).
  rewrite (lambda_handler_batch event1 context _ l1 w H1 eq_refl).
  cbn [value events final].
  destruct (value (run_batch l1 w)) as [e | []] eqn:Hv.
  - rewrite (run_batch_app_raises l1 l2 w e Hv), Hv. reflexivity.
  - rewrite (lambda_handler_batch event2 context _ l2 _ H2 eq_refl).
    cbn [value events final].
    rewrite (run_batch_app l1 l2 w Hv). reflexivity.
Qed.

(** X2.  When the handler returns, its log holds exactly one closing line
    per message of the batch (skipped, saved or failed): no message goes
    unreported and none is reported twice. *)
Theorem every_message_gets_one_verdict
    (event context records v : pyval) (batch : list pyval) (w : World) :
  getitem_str event (lit "Records") = inr records ->
  py_iter records = inr batch ->
  value (lambda_handler event context w) = inr v ->
  count is_verdict (events (lambda_handler event context w)) =
  List.length batch.
Proof.
  intros Hr Hb Hv.
  pose proof (lambda_handler_returned _ _ _ _ _ _ Hr Hb Hv) as Hp.
  rewrite (lambda_handler_batch event context records batch w Hr Hb).
  cbn [events].
  rewrite (run_batch_count is_verdict (fun _ => 1) message_one_verdict
             batch w Hp).
  clear. induction batch as [| m batch IH]; [reflexivity |].
  change (list_sum (map (fun _ : pyval => 1) (m :: batch)))
    with (1 + list_sum (map (fun _ : pyval => 1) batch)).
  rewrite IH. reflexivity.
Qed.

(** X3.  When the handler returns, it has called [get_object] exactly once
    for every message that reaches the fetch (its event is accepted and
    line 24 can print its key and bucket) and for no other message; and an
    invocation never calls [put_object] more often than [get_object]. *)
Theorem get_object_once_per_accepted_message
    (event context records v : pyval) (batch : list pyval) (w : World) :
  getitem_str event (lit "Records") = inr records ->
  py_iter records = inr batch ->
  value (lambda_handler event context w) = inr v ->
  count is_get_object (events (lambda_handler event context w)) =
    List.length (filter reaches_fetch batch) /\
  count is_put_object (events (lambda_handler event context w)) <=
    count is_get_object (events (lambda_handler event context w)).
Proof.
  intros Hr Hb Hv.
  pose proof (lambda_handler_returned _ _ _ _ _ _ Hr Hb Hv) as Hp.
  rewrite (lambda_handler_batch event context records batch w Hr Hb).
  cbn [events]. split; [| apply run_batch_puts_le_gets].
  rewrite (run_batch_count is_get_object
             (fun m => if reaches_fetch m then 1 else 0)
             (fun m w _ => message_gets m w) batch w Hp).
  clear. induction batch as [| m batch IH]; [reflexivity |].
  change (list_sum (map (fun m => if reaches_fetch m then 1 else 0)
                      (m :: batch)))
    with ((if reaches_fetch m then 1 else 0)
          + list_sum (map (fun m => if reaches_fetch m then 1 else 0) batch)).
  rewrite IH. cbn [filter]. destruct (reaches_fetch m); reflexivity.
Qed.

(** X4.  Whatever the event, the handler reads only keys that start with
    [uploads/] and writes only keys that start with [optimized/]; a key it
    writes does not start with [uploads/], so an object it stores is never
    an accepted upload itself. *)
Theorem reads_uploads_writes_optimized
    (event context : pyval) (w : World) :
  (forall b k ok,
     In (Call (GetObject b k) ok) (events (lambda_handler event context w)) ->
     exists s, k = PyStr s /\ is_prefix (lit "uploads/") s = true) /\
  (forall b k body ct ok,
     In (Call (PutObject b k body ct) ok)
        (events (lambda_handler event context w)) ->
     exists s, k = PyStr s /\ is_prefix (lit "optimized/") s = true /\
               startswith k (lit "uploads/") = inr false).
Proof.
  destruct (lambda_handler_events event context w) as [batch ->].
  split.
  - intros b k ok Hin.
    destruct (run_batch_event_origin batch w _ Hin)
      as (m & w' & _ & _ & _ & Hev & _).
    apply (message_get_key m w' b k ok Hev).
  - intros b k body ct ok Hin.
    destruct (run_batch_event_origin batch w _ Hin)
      as (m & w' & _ & _ & _ & Hev & _).
    destruct (message_put_key m w' b k body ct ok Hev) as (s & -> & Hp).
    rewrite (destination_of_accepted_key s Hp).
    generalize (replace (skipn 8 s) (lit "uploads/") (lit "optimized/")).
    intros rest.
    exists (lit "optimized/" ++ rest).
    split; [reflexivity |]. split; [apply is_prefix_app | reflexivity].
Qed.

(** X5.  The line [Successfully processed and saved to k] is in the log of
    an invocation if and only if a [put_object] call with key [k] returned
    in that invocation. *)
Theorem saved_line_iff_put_returned
    (event context : pyval) (w : World) (k : pyval) :
  In (Print (Saved k)) (events (lambda_handler event context w)) <->
  exists b body ct,
    In (Call (PutObject b k body ct) true)
       (events (lambda_handler event context w)).
Proof.
  destruct (lambda_handler_events event context w) as [batch ->].
  split.
  - intros Hin.
    destruct (run_batch_event_origin batch w _ Hin)
      as (m & w' & t1 & t2 & _ & Hev & Heq).
    destruct (proj1 (message_saved_iff m w' k) Hev) as (b & body & ct & Hp).
    exists b, body, ct. rewrite Heq.
    apply in_or_app. right. apply in_or_app. left. exact Hp.
  - intros (b & body & ct & Hin).
    destruct (run_batch_event_origin batch w _ Hin)
      as (m & w' & t1 & t2 & _ & Hev & Heq).
    rewrite Heq. apply in_or_app. right. apply in_or_app. left.
    apply (message_saved_iff m w' k). exists b, body, ct. exact Hev.
Qed.

(** X6.  A batch in which no message has an accepted event (bodies that
    do not parse, missing fields, keys outside [uploads/]) makes not a
    single call to S3 or to the codec and leaves the world as it was,
    whether the handler returns or raises; it returns its acknowledgment
    when no item of the batch is a string that holds a lone surrogate. *)
Theorem batch_without_accepted_event_is_noop
    (event context records : pyval) (batch : list pyval) (w : World) :
  getitem_str event (lit "Records") = inr records ->
  py_iter records = inr batch ->
  (forall m, In m batch -> accepted m = false) ->
  final (lambda_handler event context w) = w /\
  count is_call (events (lambda_handler event context w)) = 0 /\
  (forallb printable batch = true ->
   value (lambda_handler event context w) = inr response).
Proof.
  intros Hr Hb Hrej.
  rewrite (lambda_handler_batch event context records batch w Hr Hb).
  cbn [value events final].
  destruct (run_batch_rejected batch w Hrej) as [Hf Hc].
  split; [exact Hf |]. split; [exact Hc |].
  intros Hp. rewrite (run_batch_returns batch w Hp). reflexivity.
Qed.

(** X7.  Within one message no call follows a call that raised: the
    handler does not retry and does not go on to a later step. *)
Theorem no_call_after_failed_call
    (record : pyval) (w : World) (t1 t2 : trace) (c : call) :
  events (process_message record w) = t1 ++ Call c false :: t2 ->
  count is_call t2 = 0.
Proof.
  intros H.
  apply (quiet_after_failure_spec _
           (message_quiet_after_failure record w) t1 c t2 H).
Qed.

End BatchExtras.

(** ** Edge cases and the path of a successful message *)

Section PathExtras.

Context {World Stream Img : Type} {env : Collaborators World Stream Img}.

(** An item of the batch that is a string has no ['body']: it fails with a
    [TypeError] before anything else happens, and its failure line is
    printed when the string can be encoded. *)
Lemma string_message (s : pystr) (w : World) :
  encodable s = true ->
  process_message (PyStr s) w =
  Outcome (inr tt) (failure_lines (PyStr s) TypeError) w.
Proof.
  intros H. unfold process_message, try_except.
  rewrite try_body_split. cbn [extract and_then getitem_str].
  unfold bind, print. cbn [line_printable printable]. rewrite H.
  reflexivity.
Qed.

Lemma run_batch_strings (items : list pystr) (w : World) :
  forallb encodable items = true ->
  run_batch (map PyStr items) w =
  Outcome (inr tt)
    (flat_map (fun s => failure_lines (PyStr s) TypeError) items) w.
Proof.
  induction items as [| s items IH]; intros H.
  - reflexivity.
  - cbn [forallb] in H. apply andb_true_iff in H. destruct H as [Hs H].
    cbn [map]. rewrite (run_batch_cons (PyStr s) _ w Hs).
    rewrite (string_message s w Hs). cbn [final events].
    rewrite (IH H). reflexivity.
Qed.

(** The first string that cannot be encoded stops the loop. *)
Lemma run_batch_strings_unprintable (pre post : list pystr) (bad : pystr)
    (w : World) :
  forallb encodable pre = true ->
  encodable bad = false ->
  run_batch (map PyStr (pre ++ bad :: post)) w =
  Outcome (inl UnicodeEncodeError)
    (flat_map (fun s => failure_lines (PyStr s) TypeError) pre) w.
Proof.
  intros Hpre Hbad. rewrite map_app.
  pose proof (run_batch_strings pre w Hpre) as Hrun.
  rewrite (run_batch_app (map PyStr pre) _ w); rewrite Hrun;
    [| reflexivity].
  cbn [value events final map].
  rewrite (run_batch_cons_unprintable (PyStr bad) _ w Hbad).
  cbn [value events final]. rewrite app_nil_r. reflexivity.
Qed.

(** X10.  When [event['Records']] is a string or a dict instead of a
    list, the loop runs over its code points, each as a one-character
    string, or over its keys.  Each of them fails as a message with a
    [TypeError] and nothing is fetched or stored.  When all of them can be
    encoded, the two failure lines of each are printed, the world is left
    as it was and the handler returns its acknowledgment; at the first one
    that cannot, the handler raises [UnicodeEncodeError], after the lines of
    those before it. *)
Theorem records_string_or_dict
    (event context records : pyval) (w : World) :
  getitem_str event (lit "Records") = inr records ->
  (exists s, records = PyStr s) \/ (exists d, records = PyDict d) ->
  py_iter records = inr (map PyStr (iterated_strings records)) /\
  (forallb encodable (iterated_strings records) = true ->
   lambda_handler event context w =
   Outcome (inr response)
     (flat_map (fun s => failure_lines (PyStr s) TypeError)
        (iterated_strings records))
     w) /\
  (forall pre bad post,
     iterated_strings records = pre ++ bad :: post ->
     forallb encodable pre = true ->
     encodable bad = false ->
     lambda_handler event context w =
     Outcome (inl UnicodeEncodeError)
       (flat_map (fun s => failure_lines (PyStr s) TypeError) pre) w).
Proof.
  intros Hr Hshape.
  assert (Hiter :
            py_iter records = inr (map PyStr (iterated_strings records))).
  { destruct Hshape as [[s ->] | [d ->]]; cbn [py_iter iterated_strings].
    - unfold chars. rewrite map_map. reflexivity.
    - rewrite map_map. reflexivity. }
  split; [exact Hiter |]. split.
  - intros Hp.
    rewrite (lambda_handler_batch event context _ _ w Hr Hiter).
    rewrite (run_batch_strings _ w Hp). reflexivity.
  - intros pre bad post Heq Hpre Hbad.
    rewrite (lambda_handler_batch event context _ _ w Hr Hiter).
    rewrite Heq, (run_batch_strings_unprintable pre post bad w Hpre Hbad).
    reflexivity.
Qed.

(** X11.  A message with an accepted key for which every step returns
    does exactly this, in this order: it prints the processing line,
    fetches the object, reads it, decodes it, encodes it as JPEG at quality
    30, stores the result in the same bucket under the derived key with
    content type [image/jpeg] and prints the success line; the world is
    what the store call leaves. *)
Theorem accepted_message_success_path
    (record bucket : pyval) (key : pystr) (stream : Stream) (data : bytes)
    (image : Img) (buffer : bytes) (w w1 w2 w3 : World) :
  extract record = inr (bucket, PyStr key) ->
  is_prefix (lit "uploads/") key = true ->
  s3_get_object bucket (PyStr key) w = (inr stream, w1) ->
  stream_read stream w1 = (inr data, w2) ->
  image_open data = inr image ->
  image_save image "JPEG" 30 = inr buffer ->
  s3_put_object bucket
    (PyStr (replace key (lit "uploads/") (lit "optimized/"))) buffer
    "image/jpeg" w2 = (inr tt, w3) ->
  process_message record w =
  Outcome (inr tt)
    [Print (Processing (PyStr key) bucket);
     Call (GetObject bucket (PyStr key)) true;
     Call ReadBody true;
     Call (ImageOpen data) true;
     Call (ImageSave "JPEG" 30) true;
     Call (PutObject bucket
             (PyStr (replace key (lit "uploads/") (lit "optimized/")))
             buffer "image/jpeg") true;
     Print (Saved (PyStr (replace key (lit "uploads/") (lit "optimized/"))))]
    w3.
Proof.
  intros Hx Hp Hget Hread Hopen Hsave Hput.
  destruct (get_object_printable _ _ _ _ _ Hget) as [Hpb Hpk].
  cbn [printable] in Hpk.
  unfold process_message, try_except. rewrite try_body_split, Hx.
  unfold transform, bind, lift, invoke, invoke_pure, print, startswith,
    str_replace.
  rewrite Hp. cbn [negb is_ok app line_printable printable].
  rewrite Hpk, Hpb, (encodable_destination key Hpk).
  cbn [negb is_ok app andb].
  rewrite Hget. cbn [is_ok app].
  rewrite Hread. cbn [is_ok app]. rewrite Hopen. cbn [is_ok app].
  rewrite Hsave. cbn [is_ok app]. rewrite Hput. reflexivity.
Qed.

(** X12.  A message whose decoded body has an empty ['Records'] list
    fails with an [IndexError]: the two failure lines are printed, nothing
    is fetched or stored and the world is left as it was. *)
Theorem empty_records_list_fails
    (record body message_body : pyval) (w : World) :
  getitem_str record (lit "body") = inr body ->
  json_loads body = inr message_body ->
  getitem_str message_body (lit "Records") = inr (PyList []) ->
  process_message record w =
  Outcome (inr tt) (failure_lines record IndexError) w.
Proof.
  intros Hb Hj Hr.
  destruct (getitem_str_dict record _ _ Hb) as [entries ->].
  unfold process_message, try_except.
  rewrite try_body_split. unfold extract.
  rewrite Hb. cbn [and_then]. rewrite Hj. cbn [and_then]. rewrite Hr.
  reflexivity.
Qed.

(** X13.  A batch item that is a dict without a ['body'] entry (an S3
    notification delivered without its queue envelope, for one) fails with
    [KeyError('body')]: nothing is parsed, fetched or stored. *)
Theorem missing_body_fails
    (entries : list (pystr * pyval)) (w : World) :
  dict_get (lit "body") entries = None ->
  process_message (PyDict entries) w =
  Outcome (inr tt)
    (failure_lines (PyDict entries) (KeyError (PyStr (lit "body")))) w.
Proof.
  intros H. unfold process_message, try_except.
  rewrite try_body_split. unfold extract. cbn [getitem_str].
  rewrite H. reflexivity.
Qed.

(** X14.  When the body of a message is a string that [json.loads]
    rejects, the exception of the parser is the one shown in the error
    line, after the line that shows the message; nothing is fetched or
    stored. *)
Theorem parse_error_is_reported
    (record : pyval) (text : pystr) (e : exn) (w : World) :
  getitem_str record (lit "body") = inr (PyStr text) ->
  json_parse text = inl e ->
  process_message record w =
  Outcome (inr tt) (failure_lines record e) w.
Proof.
  intros Hb Hj.
  destruct (getitem_str_dict record _ _ Hb) as [entries ->].
  unfold process_message, try_except.
  rewrite try_body_split. unfold extract.
  rewrite Hb. cbn [and_then json_loads]. rewrite Hj. reflexivity.
Qed.

End PathExtras.

(** ** The further properties at concrete inputs *)

Lemma handler_splits_batch_witness :
  lambda_handler (batch_event (["images uploads/photo.jpg"] ++ ["!oops"]))
    PyNone initial =
  match value (lambda_handler (batch_event ["images uploads/photo.jpg"])
                 PyNone initial) with
  | inr _ =>
      Outcome
        (value (lambda_handler (batch_event ["!oops"]) PyNone
                  (final (lambda_handler
                            (batch_event ["images uploads/photo.jpg"])
                            PyNone initial))))
        (events (lambda_handler (batch_event ["images uploads/photo.jpg"])
                   PyNone initial)
         ++ events (lambda_handler (batch_event ["!oops"]) PyNone
                      (final (lambda_handler
                                (batch_event ["images uploads/photo.jpg"])
                                PyNone initial))))
        (final (lambda_handler (batch_event ["!oops"]) PyNone
                  (final (lambda_handler
                            (batch_event ["images uploads/photo.jpg"])
                            PyNone initial))))
  | inl _ =>
      lambda_handler (batch_event ["images uploads/photo.jpg"]) PyNone initial
  end.
Proof.
  refine (handler_splits_batch
            (batch_event (["images uploads/photo.jpg"] ++ ["!oops"]))
            (batch_event ["images uploads/photo.jpg"])
            (batch_event ["!oops"]) PyNone
            [message "images uploads/photo.jpg"] [message "!oops"]
            initial _ _ _);
    vm_compute; reflexivity.
Defined.

Lemma every_message_gets_one_verdict_witness :
  count is_verdict
    (events (lambda_handler
               (batch_event ["images uploads/photo.jpg"; "!oops";
                             "images thumbnails/x.jpg"])
               PyNone initial)) =
  List.length (map message ["images uploads/photo.jpg"; "!oops";
                            "images thumbnails/x.jpg"]).
Proof.
  refine (every_message_gets_one_verdict
            (batch_event ["images uploads/photo.jpg"; "!oops";
                          "images thumbnails/x.jpg"])
            PyNone
            (PyList (map message ["images uploads/photo.jpg"; "!oops";
                                  "images thumbnails/x.jpg"]))
            response
            (map message ["images uploads/photo.jpg"; "!oops";
                          "images thumbnails/x.jpg"])
            initial _ _ _);
    vm_compute; reflexivity.
Defined.

Lemma get_object_once_per_accepted_message_witness :
  count is_get_object
    (events (lambda_handler
               (raw_event [message "images uploads/photo.jpg";
                           message "!oops";
                           raw_message (lit "images uploads/"
                                        ++ lone_surrogate);
                           message "images uploads/missing.jpg"])
               PyNone initial)) =
    List.length
      (filter reaches_fetch
         [message "images uploads/photo.jpg";
          message "!oops";
          raw_message (lit "images uploads/" ++ lone_surrogate);
          message "images uploads/missing.jpg"]) /\
  count is_put_object
    (events (lambda_handler
               (raw_event [message "images uploads/photo.jpg";
                           message "!oops";
                           raw_message (lit "images uploads/"
                                        ++ lone_surrogate);
                           message "images uploads/missing.jpg"])
               PyNone initial)) <=
  count is_get_object
    (events (lambda_handler
               (raw_event [message "images uploads/photo.jpg";
                           message "!oops";
                           raw_message (lit "images uploads/"
                                        ++ lone_surrogate);
                           message "images uploads/missing.jpg"])
               PyNone initial)).
Proof.
  refine (get_object_once_per_accepted_message
            (raw_event [message "images uploads/photo.jpg";
                        message "!oops";
                        raw_message (lit "images uploads/" ++ lone_surrogate);
                        message "images uploads/missing.jpg"])
            PyNone
            (PyList [message "images uploads/photo.jpg";
                     message "!oops";
                     raw_message (lit "images uploads/" ++ lone_surrogate);
                     message "images uploads/missing.jpg"])
            response
            [message "images uploads/photo.jpg";
             message "!oops";
             raw_message (lit "images uploads/" ++ lone_surrogate);
             message "images uploads/missing.jpg"]
            initial _ _ _);
    vm_compute; reflexivity.
Defined.

Lemma reads_uploads_writes_optimized_witness :
  (exists s, PyStr (lit "uploads/photo.jpg") = PyStr s /\
             is_prefix (lit "uploads/") s = true) /\
  (exists s, PyStr (lit "optimized/photo.jpg") = PyStr s /\
             is_prefix (lit "optimized/") s = true /\
             startswith (PyStr (lit "optimized/photo.jpg")) (lit "uploads/")
               = inr false).
Proof.
  destruct (reads_uploads_writes_optimized
              (batch_event ["images uploads/photo.jpg"]) PyNone initial)
    as [Hget Hput].
  split.
  - apply (Hget (PyStr (lit "images")) (PyStr (lit "uploads/photo.jpg")) true).
    vm_compute. right. left. reflexivity.
  - apply (Hput (PyStr (lit "images")) (PyStr (lit "optimized/photo.jpg"))
             encoded_photo "image/jpeg" true).
    vm_compute. do 5 right. left. reflexivity.
Defined.

Lemma saved_line_iff_put_returned_witness :
  In (Print (Saved (PyStr (lit "optimized/photo.jpg"))))
     (events (lambda_handler (batch_event ["images uploads/photo.jpg"])
                PyNone initial)).
Proof.
  apply (proj2 (saved_line_iff_put_returned
                  (batch_event ["images uploads/photo.jpg"]) PyNone initial
                  (PyStr (lit "optimized/photo.jpg")))).
  exists (PyStr (lit "images")), encoded_photo, "image/jpeg".
  vm_compute. do 5 right. left. reflexivity.
Defined.

Lemma batch_without_accepted_event_is_noop_witness :
  final (lambda_handler (batch_event ["!oops"; "images thumbnails/x.jpg"])
           PyNone initial) = initial /\
  count is_call
    (events (lambda_handler (batch_event ["!oops"; "images thumbnails/x.jpg"])
               PyNone initial)) = 0 /\
  value (lambda_handler (batch_event ["!oops"; "images thumbnails/x.jpg"])
           PyNone initial) = inr response.
Proof.
  destruct (batch_without_accepted_event_is_noop
              (batch_event ["!oops"; "images thumbnails/x.jpg"]) PyNone
              (PyList (map message ["!oops"; "images thumbnails/x.jpg"]))
              (map message ["!oops"; "images thumbnails/x.jpg"])
              initial)
    as (Hfinal & Hcalls & Hvalue).
  - vm_compute; reflexivity.
  - vm_compute; reflexivity.
  - intros m [<- | [<- | []]]; vm_compute; reflexivity.
  - split; [exact Hfinal |]. split; [exact Hcalls |].
    apply Hvalue. vm_compute; reflexivity.
Defined.

Lemma no_call_after_failed_call_witness :
  count is_call
    (failure_lines (message "images uploads/missing.jpg")
       (Raised "ClientError" "NoSuchKey")) = 0.
Proof.
  refine (no_call_after_failed_call
            (message "images uploads/missing.jpg") initial
            [Print (Processing (PyStr (lit "uploads/missing.jpg"))
                      (PyStr (lit "images")))]
            (failure_lines (message "images uploads/missing.jpg")
               (Raised "ClientError" "NoSuchKey"))
            (GetObject (PyStr (lit "images"))
               (PyStr (lit "uploads/missing.jpg"))) _).
  vm_compute; reflexivity.
Defined.

Lemma simple_key_prefix_swap_witness :
  str_replace (PyStr (lit "uploads/2024/photo.jpg"))
    (lit "uploads/") (lit "optimized/") =
    inr (PyStr (lit "optimized/" ++ skipn 8 (lit "uploads/2024/photo.jpg"))) /\
  replace (lit "uploads/2024/photo.jpg") (lit "uploads/") (lit "optimized/") =
    replace_first (lit "uploads/2024/photo.jpg")
      (lit "uploads/") (lit "optimized/").
Proof.
  refine (simple_key_prefix_swap (lit "uploads/2024/photo.jpg") _ _);
    vm_compute; reflexivity.
Defined.

Lemma simple_keys_do_not_collide_witness :
  replace (lit "uploads/a.jpg") (lit "uploads/") (lit "optimized/") <>
  replace (lit "uploads/b.jpg") (lit "uploads/") (lit "optimized/").
Proof.
  refine (simple_keys_do_not_collide (lit "uploads/a.jpg")
            (lit "uploads/b.jpg") _ _ _ _ _);
    try (vm_compute; reflexivity).
  vm_compute. discriminate.
Defined.

Lemma records_string_or_dict_witness :
  lambda_handler (PyDict [(lit "Records", PyStr (lit "ab"))]) PyNone initial =
    Outcome (inr response)
      (flat_map (fun s => failure_lines (PyStr s) TypeError)
         [lit "a"; lit "b"])
      initial /\
  lambda_handler
    (PyDict [(lit "Records", PyStr (lit "a" ++ lone_surrogate ++ lit "b"))])
    PyNone initial =
    Outcome (inl UnicodeEncodeError)
      (flat_map (fun s => failure_lines (PyStr s) TypeError) [lit "a"])
      initial.
Proof.
  split.
  - apply (proj1 (proj2 (records_string_or_dict
             (PyDict [(lit "Records", PyStr (lit "ab"))]) PyNone
             (PyStr (lit "ab")) initial eq_refl
             (or_introl (ex_intro _ (lit "ab") eq_refl))))).
    reflexivity.
  - apply (proj2 (proj2 (records_string_or_dict
             (PyDict [(lit "Records",
                       PyStr (lit "a" ++ lone_surrogate ++ lit "b"))])
             PyNone
             (PyStr (lit "a" ++ lone_surrogate ++ lit "b")) initial eq_refl
             (or_introl (ex_intro _ (lit "a" ++ lone_surrogate ++ lit "b")
                           eq_refl))))
           [lit "a"] lone_surrogate [lit "b"]);
      reflexivity.
Defined.

Lemma accepted_message_success_path_witness :
  process_message (message "images uploads/photo.jpg") initial =
  Outcome (inr tt)
    [Print (Processing (PyStr (lit "uploads/photo.jpg"))
              (PyStr (lit "images")));
     Call (GetObject (PyStr (lit "images"))
             (PyStr (lit "uploads/photo.jpg"))) true;
     Call ReadBody true;
     Call (ImageOpen photo) true;
     Call (ImageSave "JPEG" 30) true;
     Call (PutObject (PyStr (lit "images"))
             (PyStr (replace (lit "uploads/photo.jpg") (lit "uploads/")
                       (lit "optimized/")))
             encoded_photo "image/jpeg") true;
     Print (Saved (PyStr (replace (lit "uploads/photo.jpg") (lit "uploads/")
                            (lit "optimized/"))))]
    (Store ((lit "images", lit "optimized/photo.jpg", encoded_photo)
            :: objects initial) (write_denied initial)).
Proof.
  refine (accepted_message_success_path
            (message "images uploads/photo.jpg") (PyStr (lit "images"))
            (lit "uploads/photo.jpg") photo photo [x01; x02; x03]
            encoded_photo
            initial initial initial
            (Store ((lit "images", lit "optimized/photo.jpg", encoded_photo)
                    :: objects initial) (write_denied initial))
            _ _ _ _ _ _ _);
    vm_compute; reflexivity.
Defined.

Lemma empty_records_list_fails_witness :
  @process_message store bytes bytes hollow (message "anything") initial =
  Outcome (inr tt) (failure_lines (message "anything") IndexError) initial.
Proof.
  refine (@empty_records_list_fails store bytes bytes hollow
            (message "anything") (PyStr (lit "anything"))
            (PyDict [(lit "Records", PyList [])]) initial _ _ _);
    vm_compute; reflexivity.
Defined.

Lemma missing_body_fails_witness :
  process_message
    (PyDict [(lit "eventName", PyStr (lit "ObjectCreated:Put"))]) initial =
  Outcome (inr tt)
    (failure_lines
       (PyDict [(lit "eventName", PyStr (lit "ObjectCreated:Put"))])
       (KeyError (PyStr (lit "body"))))
    initial.
Proof.
  refine (missing_body_fails
            [(lit "eventName", PyStr (lit "ObjectCreated:Put"))] initial _).
  vm_compute; reflexivity.
Defined.

Lemma parse_error_is_reported_witness :
  process_message (message "!oops") initial =
  Outcome (inr tt)
    (failure_lines (message "!oops")
       (Raised "JSONDecodeError" "Expecting value"))
    initial.
Proof.
  refine (parse_error_is_reported (message "!oops") (lit "!oops")
            (Raised "JSONDecodeError" "Expecting value") initial _ _);
    vm_compute; reflexivity.
Defined.
